(** * AdvancedTradingStrategy: signal detection and risk levels

    A shallow embedding of [strategy.py] (class [AdvancedTradingStrategy])
    and the properties of its zone, pattern, session and risk logic.

    Conventions of the embedding.
    - Prices, volumes and indicator values are exact rationals ([Q]); the
      decimal constants of the source ([0.98], [1.02], [0.995], ...) are the
      rationals they denote.  Rounding of binary floating point is not
      modelled; where a double can absorb a small term, only the order that
      rounding keeps is stated.
    - A data or indicator line is read by index ([self.data.low[i]]).  A read
      of a position the series does not hold raises [IndexError]; a line is
      therefore a partial function and every method that reads one returns a
      [result].
    - A method that falls off its end returns Python's [None]; such a return
      value is an [option].
    - [self.last_trade_date] is the only mutable attribute; [next] takes it
      and returns its new value together with the orders it placed. *)

From Stdlib Require Import ZArith QArith Qabs List String Ascii Bool Sorted Lia Lqa.
Import ListNotations.

Open Scope Z_scope.
Open Scope Q_scope.

(** ** Exceptions and results *)

Inductive exn : Type :=
| IndexError
| ValueError.

Inductive result (A : Type) : Type :=
| Ok (a : A)
| Raise (e : exn).

Arguments Ok {A} a.
Arguments Raise {A} e.

Definition bind {A B : Type} (r : result A) (k : A -> result B) : result B :=
  match r with
  | Ok a => k a
  | Raise e => Raise e
  end.

Notation "x <- r ;; k" := (bind r (fun x => k))
  (at level 61, r at next level, right associativity).

(** Python's [a and b] on two fallible boolean expressions: [b] is evaluated
    only when [a] is true. *)
Definition and_then (a b : result bool) : result bool :=
  x <- a ;; if x then b else Ok false.

Infix "&?" := and_then (at level 41, right associativity).

Definition raises {A : Type} (r : result A) : Prop :=
  match r with
  | Ok _ => False
  | Raise _ => True
  end.

(** ** Numbers *)

Definition Qltb (x y : Q) : bool := negb (Qle_bool y x).
Definition Qgtb (x y : Q) : bool := Qltb y x.

(** ** Times of day and timestamps *)

Record time : Type := mk_time {
  hour : Z;
  minute : Z;
  second : Z;
  microsecond : Z
}.

Definition lex (c1 c2 : comparison) : comparison :=
  match c1 with
  | Eq => c2
  | _ => c1
  end.

(** [datetime.time] objects compare as the tuples
    (hour, minute, second, microsecond). *)
Definition time_compare (a b : time) : comparison :=
  lex (hour a ?= hour b)%Z
      (lex (minute a ?= minute b)%Z
           (lex (second a ?= second b)%Z
                (microsecond a ?= microsecond b)%Z)).

Definition time_leb (a b : time) : bool :=
  match time_compare a b with
  | Gt => false
  | _ => true
  end.

Definition time_lt (a b : time) : Prop := time_compare a b = Lt.
Definition time_le (a b : time) : Prop := time_compare a b <> Gt.

(** A calendar date is its ordinal number of days. *)
Definition date : Type := Z.

Record datetime : Type := mk_datetime {
  dt_date : date;
  dt_time : time
}.

(** Timestamp order: by date, then by time of day. *)
Definition datetime_le (a b : datetime) : Prop :=
  (dt_date a < dt_date b)%Z \/ (dt_date a = dt_date b /\ time_le (dt_time a) (dt_time b)).

(** ** Parameters *)

Record params : Type := mk_params {
  rr_ratio : Q;
  rsi_period : Z;
  volume_threshold : Q;
  fvg_threshold : Q;
  engulfing_lookback : Z;
  stop_loss_buffer : Q;
  trade_start_time : string;
  trade_end_time : string;
  use_atr : bool;
  atr_period : Z;
  atr_multiplier : Q
}.

Definition default_params : params := {|
  rr_ratio := 3.0;
  rsi_period := 14;
  volume_threshold := 1.5;
  fvg_threshold := 0.5;
  engulfing_lookback := 2;
  stop_loss_buffer := 0.995;
  trade_start_time := "08:00";
  trade_end_time := "22:00";
  use_atr := false;
  atr_period := 14;
  atr_multiplier := 2.0
|}.

(** ** Data and indicator lines *)

(** A line read at an index; [None] is a position the series does not hold. *)
Definition line : Type := Z -> option Q.

Definition get (l : line) (i : Z) : result Q :=
  match l i with
  | Some x => Ok x
  | None => Raise IndexError
  end.

(** What the strategy sees of its feed and indicators during one call of
    [next]: [self.data], [len(self.data)], the timestamp of the current bar,
    and the indicators set up in [__init__].  The engine calls [next] on a
    bar that exists, so the current bar has a timestamp.  [rsi] and [stochastic_percK]
    are the values the comparisons [self.rsi < 30] and
    [self.stochastic.percK < 20] compare, those of the current bar. *)
Record View : Type := mk_view {
  data_open : line;
  data_high : line;
  data_low : line;
  data_close : line;
  data_volume : line;
  data_len : Z;
  data_datetime : datetime;
  rsi : Q;
  stochastic_percK : Q;
  atr : line;
  avg_volume : line
}.

(** ** Orders *)

Inductive side : Type := Buy | Sell.
Inductive exectype : Type := Market | Stop | Limit.

(** One call of [self.buy(...)] or [self.sell(...)]; [price] is the value
    passed as [price=], absent for a market order. *)
Record order : Type := mk_order {
  order_side : side;
  order_exectype : exectype;
  order_price : option Q
}.

Inductive engulfing : Type := bullish | bearish.

Definition range (a b : Z) : list Z :=
  map (fun k => (a + Z.of_nat k)%Z) (seq 0 (Z.to_nat (b - a))).

(** ** The strategy *)

Section Strategy.

(** [datetime.strptime(s, '%H:%M').time()], which raises [ValueError] on a
    string that is not of that format. *)
Variable strptime_HM : string -> result time.

(** [dt.astimezone(pytz.timezone('Europe/Oslo'))]. *)
Variable astimezone_oslo : datetime -> datetime.

(** [self.params]. *)
Variable p : params.

(** [self.data] and the indicators, as seen during the current call. *)
Variable d : View.

Definition is_demand_zone (index : Z) : result bool :=
  swing_low <- (low_i <- get (data_low d) index ;;
                low_prev <- get (data_low d) (index - 1) ;;
                Ok (Qltb low_i low_prev))
               &? (low_i <- get (data_low d) index ;;
                   low_next <- get (data_low d) (index + 1) ;;
                   Ok (Qltb low_i low_next)) ;;
  if swing_low then
    vol <- get (data_volume d) index ;;
    avg <- get (avg_volume d) index ;;
    if Qgtb vol (avg * volume_threshold p) then Ok true else Ok false
  else Ok false.

Definition is_supply_zone (index : Z) : result bool :=
  swing_high <- (high_i <- get (data_high d) index ;;
                 high_prev <- get (data_high d) (index - 1) ;;
                 Ok (Qgtb high_i high_prev))
                &? (high_i <- get (data_high d) index ;;
                    high_next <- get (data_high d) (index + 1) ;;
                    Ok (Qgtb high_i high_next)) ;;
  if swing_high then
    vol <- get (data_volume d) index ;;
    avg <- get (avg_volume d) index ;;
    if Qgtb vol (avg * volume_threshold p) then Ok true else Ok false
  else Ok false.

Definition is_fair_value_gap (index : Z) : result bool :=
  close_i <- get (data_close d) index ;;
  open_prev <- get (data_open d) (index - 1) ;;
  let gap := Qabs (close_i - open_prev) in
  Ok (Qgtb gap (fvg_threshold p)).

(** The test of the first branch of [is_engulfing_pattern]. *)
Definition bullish_engulfing (index : Z) : result bool :=
  (close_i <- get (data_close d) index ;;
   open_prev <- get (data_open d) (index - 1) ;;
   Ok (Qgtb close_i open_prev))
  &? (open_i <- get (data_open d) index ;;
      close_prev <- get (data_close d) (index - 1) ;;
      Ok (Qltb open_i close_prev)).

(** The test of its [elif] branch. *)
Definition bearish_engulfing (index : Z) : result bool :=
  (close_i <- get (data_close d) index ;;
   open_prev <- get (data_open d) (index - 1) ;;
   Ok (Qltb close_i open_prev))
  &? (open_i <- get (data_open d) index ;;
      close_prev <- get (data_close d) (index - 1) ;;
      Ok (Qgtb open_i close_prev)).

Definition is_engulfing_pattern (index : Z) : result (option engulfing) :=
  bull <- bullish_engulfing index ;;
  if bull then Ok (Some bullish)
  else
    bear <- bearish_engulfing index ;;
    if bear then Ok (Some bearish) else Ok None.

(** The same classifier with the two branches tested in the other order;
    it is not part of the source and serves only to compare. *)
Definition is_engulfing_pattern_bearish_first (index : Z) : result (option engulfing) :=
  bear <- bearish_engulfing index ;;
  if bear then Ok (Some bearish)
  else
    bull <- bullish_engulfing index ;;
    if bull then Ok (Some bullish) else Ok None.

Definition is_within_trading_hours : result bool :=
  let current_time := dt_time (astimezone_oslo (data_datetime d)) in
  start_time <- strptime_HM (trade_start_time p) ;;
  end_time <- strptime_HM (trade_end_time p) ;;
  Ok (time_leb start_time current_time && time_leb current_time end_time).

Definition is_bullish_momentum : bool :=
  Qltb (rsi d) 30 && Qltb (stochastic_percK d) 20.

Definition is_bearish_momentum : bool :=
  Qgtb (rsi d) 70 && Qgtb (stochastic_percK d) 80.

(** The [for] loop of the long branch of [calculate_stop_loss]: the level
    of the first index that passes the test, [None] when the loop ends
    without returning. *)
Fixpoint stop_loss_long_loop (entry_price : Q) (indices : list Z) : result (option Q) :=
  match indices with
  | [] => Ok None
  | i :: rest =>
      hit <- is_demand_zone i
             &? (low_i <- get (data_low d) i ;; Ok (Qltb low_i entry_price)) ;;
      if hit then
        low_i <- get (data_low d) i ;;
        Ok (Some (low_i * stop_loss_buffer p))
      else stop_loss_long_loop entry_price rest
  end.

Fixpoint stop_loss_short_loop (entry_price : Q) (indices : list Z) : result (option Q) :=
  match indices with
  | [] => Ok None
  | i :: rest =>
      hit <- is_supply_zone i
             &? (high_i <- get (data_high d) i ;; Ok (Qgtb high_i entry_price)) ;;
      if hit then
        high_i <- get (data_high d) i ;;
        Ok (Some (high_i * (2 - stop_loss_buffer p)))
      else stop_loss_short_loop entry_price rest
  end.

Definition calculate_stop_loss (entry_price : Q) (direction : string) : result Q :=
  found <- (if (direction =? "long")%string then
              stop_loss_long_loop entry_price (range 0 (data_len d))
            else if (direction =? "short")%string then
              stop_loss_short_loop entry_price (range 0 (data_len d))
            else Ok None) ;;
  match found with
  | Some stop_loss => Ok stop_loss
  | None =>
      Ok (if (direction =? "long")%string then entry_price * 0.98
          else entry_price * 1.02)
  end.

Definition calculate_take_profit (entry_price stop_loss : Q) (direction : string) : option Q :=
  if (direction =? "long")%string then
    Some (entry_price + (entry_price - stop_loss) * rr_ratio p)
  else if (direction =? "short")%string then
    Some (entry_price - (stop_loss - entry_price) * rr_ratio p)
  else None.

(** The two ATR levels are computed here in exact arithmetic.  The source
    computes them in doubles, where a small product [atr_value *
    atr_multiplier] is absorbed by the entry price and each operation
    rounds; what is stated of these levels below is what rounding keeps:
    the side of entry they are on, not strictly, and their value when the
    product is zero. *)
Definition calculate_atr_stop_loss (entry_price : Q) (direction : string) (atr_value : Q) : option Q :=
  if (direction =? "long")%string then
    Some (entry_price - atr_value * atr_multiplier p)
  else if (direction =? "short")%string then
    Some (entry_price + atr_value * atr_multiplier p)
  else None.

Definition calculate_atr_take_profit (entry_price : Q) (direction : string) (atr_value : Q) : option Q :=
  if (direction =? "long")%string then
    Some (entry_price + atr_value * atr_multiplier p * rr_ratio p)
  else if (direction =? "short")%string then
    Some (entry_price - atr_value * atr_multiplier p * rr_ratio p)
  else None.

(** The orders placed by one call; the [log] line is not modelled. *)
Definition enter_trade (direction : string) (index : Z) : result (list order) :=
  entry_price <- get (data_close d) index ;;
  levels <- (if use_atr p then
               atr_value <- get (atr d) index ;;
               Ok (calculate_atr_stop_loss entry_price direction atr_value,
                   calculate_atr_take_profit entry_price direction atr_value)
             else
               stop_loss <- calculate_stop_loss entry_price direction ;;
               Ok (Some stop_loss,
                   calculate_take_profit entry_price stop_loss direction)) ;;
  let (stop_loss, take_profit) := levels in
  if (direction =? "long")%string then
    Ok [ mk_order Buy Market None;
         mk_order Sell Stop stop_loss;
         mk_order Sell Limit take_profit ]
  else if (direction =? "short")%string then
    Ok [ mk_order Sell Market None;
         mk_order Buy Stop stop_loss;
         mk_order Buy Limit take_profit ]
  else Ok [].

Definition is_bullish (e : option engulfing) : bool :=
  match e with
  | Some bullish => true
  | _ => false
  end.

Definition is_bearish (e : option engulfing) : bool :=
  match e with
  | Some bearish => true
  | _ => false
  end.

(** The [for] loop of [next] over the remaining indices: the new value of
    [self.last_trade_date] and the orders placed. *)
Fixpoint next_loop (last_trade_date : option date) (indices : list Z)
  : result (option date * list order) :=
  match indices with
  | [] => Ok (last_trade_date, [])
  | i :: rest =>
      engulfing_type <- is_engulfing_pattern i ;;
      long_setup <- Ok (is_bullish engulfing_type) &? is_demand_zone i
                    &? Ok is_bullish_momentum &? is_fair_value_gap i ;;
      if long_setup then
        orders <- enter_trade "long" i ;;
        Ok (Some (dt_date (data_datetime d)), orders)
      else
        short_setup <- Ok (is_bearish engulfing_type) &? is_supply_zone i
                       &? Ok is_bearish_momentum &? is_fair_value_gap i ;;
        if short_setup then
          orders <- enter_trade "short" i ;;
          Ok (Some (dt_date (data_datetime d)), orders)
        else next_loop last_trade_date rest
  end.

Definition date_eqb (a : option date) (b : date) : bool :=
  match a with
  | Some x => (x =? b)%Z
  | None => false
  end.

Definition next (last_trade_date : option date) : result (option date * list order) :=
  within <- is_within_trading_hours ;;
  if negb within then Ok (last_trade_date, [])
  else if date_eqb last_trade_date (dt_date (data_datetime d)) then
    Ok (last_trade_date, [])
  else
    next_loop last_trade_date
      (range (engulfing_lookback p) (data_len d - 1)).

End Strategy.

(** ** A run of the strategy *)

Section Run.

Variable strptime_HM : string -> result time.
Variable astimezone_oslo : datetime -> datetime.
Variable p : params.

(** The engine calls [next] once per bar, in the order of the feed, each
    time with the view of that bar.  An exception leaves [next] and ends
    the run.  The log records, per completed call, the date of the bar and
    the orders the call placed. *)
Fixpoint run (last_trade_date : option date) (views : list View)
  : list (date * list order) :=
  match views with
  | [] => []
  | d :: rest =>
      match next strptime_HM astimezone_oslo p d last_trade_date with
      | Ok (last_trade_date', orders) =>
          (dt_date (data_datetime d), orders) :: run last_trade_date' rest
      | Raise _ => []
      end
  end.

End Run.

(** A call of [next] emits a trade when it places orders. *)
Definition emits (orders : list order) : Prop := orders <> [].

(** ** Instances used in the examples *)

(** A series held in a buffer, read relative to a cursor as
    [array[idx + ago]]: offset [0] is the bar at the cursor, negative
    offsets are earlier bars, positive offsets later ones.  The position is
    a Python index: one past the end of the buffer is not held, and a
    negative one counts from the end of the buffer, so that a read before
    the first bar does not fail but returns a bar of the other end. *)
Definition line_at (values : list Q) (cursor : Z) : line :=
  fun ago =>
    let k := (cursor + ago)%Z in
    let n := Z.of_nat (List.length values) in
    if (k <? - n)%Z then None
    else if (k <? 0)%Z then nth_error values (Z.to_nat (n + k))
    else nth_error values (Z.to_nat k).

Definition digit_of (c : ascii) : option Z :=
  let n := nat_of_ascii c in
  if (48 <=? n)%nat && (n <=? 57)%nat then Some (Z.of_nat (n - 48)) else None.

(** A reader of two-digit [HH:MM] strings. *)
Definition parse_HM (s : string) : result time :=
  match s with
  | String h1 (String h0 (String ":" (String m1 (String m0 EmptyString)))) =>
      match digit_of h1, digit_of h0, digit_of m1, digit_of m0 with
      | Some a, Some b, Some c, Some e =>
          let h := (10 * a + b)%Z in
          let m := (10 * c + e)%Z in
          if (h <? 24)%Z && (m <? 60)%Z then Ok (mk_time h m 0 0)
          else Raise ValueError
      | _, _, _, _ => Raise ValueError
      end
  | _ => Raise ValueError
  end.

(** A conversion that shifts the clock by a fixed number of hours. *)
Definition shift_hours (k : Z) (t : datetime) : datetime :=
  let h := (hour (dt_time t) + k)%Z in
  mk_datetime (dt_date t + h / 24)%Z
              (mk_time (h mod 24)%Z (minute (dt_time t)) (second (dt_time t))
                       (microsecond (dt_time t))).

(** A view whose lines are lists read at [cursor], with [len(self.data)]
    the number of bars up to the cursor. *)
Definition view_at (opens highs lows closes volumes atrs avgs : list Q)
    (cursor : Z) (now : datetime) (rsi_now percK_now : Q) : View := {|
  data_open := line_at opens cursor;
  data_high := line_at highs cursor;
  data_low := line_at lows cursor;
  data_close := line_at closes cursor;
  data_volume := line_at volumes cursor;
  data_len := (cursor + 1)%Z;
  data_datetime := now;
  rsi := rsi_now;
  stochastic_percK := percK_now;
  atr := line_at atrs cursor;
  avg_volume := line_at avgs cursor
|}.

(** ** Predicates used in the statements *)

(** Index [k] holds a demand zone whose low [l] is below entry. *)
Definition qualifies_long (p : params) (d : View) (entry_price : Q) (k : Z) (l : Q) : Prop :=
  is_demand_zone p d k = Ok true /\ data_low d k = Some l /\ l < entry_price.

(** The test of the long scan returns false at [j]: no demand zone there, or
    one whose low is not below entry. *)
Definition passed_long (p : params) (d : View) (entry_price : Q) (j : Z) : Prop :=
  is_demand_zone p d j = Ok false \/
  exists l, is_demand_zone p d j = Ok true /\ data_low d j = Some l /\ entry_price <= l.

Definition qualifies_short (p : params) (d : View) (entry_price : Q) (k : Z) (h : Q) : Prop :=
  is_supply_zone p d k = Ok true /\ data_high d k = Some h /\ entry_price < h.

Definition passed_short (p : params) (d : View) (entry_price : Q) (j : Z) : Prop :=
  is_supply_zone p d j = Ok false \/
  exists h, is_supply_zone p d j = Ok true /\ data_high d j = Some h /\ h <= entry_price.



(** The line holds a value at the index. *)
Definition held (l : line) (i : Z) : Prop := l i <> None.

(** The positions the zone tests read at index [i] are held. *)
Definition zone_readable (d : View) (i : Z) : Prop :=
  held (data_low d) (i - 1) /\ held (data_low d) i /\ held (data_low d) (i + 1) /\
  held (data_high d) (i - 1) /\ held (data_high d) i /\ held (data_high d) (i + 1) /\
  held (data_volume d) i /\ held (avg_volume d) i.

(** Every position the scan of [calculate_stop_loss] may read is held. *)
Definition scan_readable (d : View) : Prop :=
  forall i, (0 <= i < data_len d)%Z -> zone_readable d i.

(** All four predicates of the long branch hold at [i]. *)
Definition long_setup (p : params) (d : View) (i : Z) : Prop :=
  is_engulfing_pattern d i = Ok (Some bullish) /\
  is_demand_zone p d i = Ok true /\
  is_bullish_momentum d = true /\
  is_fair_value_gap p d i = Ok true.

(** All four predicates of the short branch hold at [i]. *)
Definition short_setup (p : params) (d : View) (i : Z) : Prop :=
  is_engulfing_pattern d i = Ok (Some bearish) /\
  is_supply_zone p d i = Ok true /\
  is_bearish_momentum d = true /\
  is_fair_value_gap p d i = Ok true.

(** The classifiers return at [i]. *)
Definition classified (p : params) (d : View) (i : Z) : Prop :=
  (exists e, is_engulfing_pattern d i = Ok e) /\
  (exists b, is_demand_zone p d i = Ok b) /\
  (exists b, is_supply_zone p d i = Ok b) /\
  (exists b, is_fair_value_gap p d i = Ok b).

(** The classifiers return at [i] and neither branch has its four
    predicates. *)
Definition no_setup (p : params) (d : View) (i : Z) : Prop :=
  classified p d i /\ ~ long_setup p d i /\ ~ short_setup p d i.

(** The three orders of one trade: the entry at market, the protective stop
    and the target. *)
Definition bracket (direction : string) (stop_loss take_profit : Q) : list order :=
  if (direction =? "long")%string then
    [ mk_order Buy Market None;
      mk_order Sell Stop (Some stop_loss);
      mk_order Sell Limit (Some take_profit) ]
  else
    [ mk_order Sell Market None;
      mk_order Buy Stop (Some stop_loss);
      mk_order Buy Limit (Some take_profit) ].

(** The bars of a run come in timestamp order: no bar is stamped before an
    earlier one. *)
Definition timestamp_order (views : list View) : Prop :=
  StronglySorted (fun a b => datetime_le (data_datetime a) (data_datetime b)) views.

(** ** Example data *)

Definition nine_o_clock : datetime := mk_datetime 19000%Z (mk_time 9 0 0 0).

(** Seven bars read at the first one; bar 5 is a swing low on twice the
    average volume. *)
Definition swing_low_view : View :=
  view_at [100; 100; 100; 100; 100; 100; 100]
          [101; 101; 101; 101; 101; 101; 101]
          [99; 99; 99; 99; 99; 95; 99]
          [100; 100; 100; 100; 100; 100; 100]
          [100; 100; 100; 100; 100; 200; 100]
          [1; 1; 1; 1; 1; 1; 1]
          [100; 100; 100; 100; 100; 100; 100]
          0 nine_o_clock 50 50.

(** Three bars with falling lows, read at the last one. *)
Definition falling_view : View :=
  view_at [100; 100; 100] [101; 101; 101] [99; 98; 97] [100; 100; 100]
          [200; 200; 200] [1; 1; 1] [100; 100; 100]
          2 nine_o_clock 50 50.

Definition atr_params : params := {|
  rr_ratio := 3.0;
  rsi_period := 14;
  volume_threshold := 1.5;
  fvg_threshold := 0.5;
  engulfing_lookback := 2;
  stop_loss_buffer := 0.995;
  trade_start_time := "08:00";
  trade_end_time := "22:00";
  use_atr := true;
  atr_period := 14;
  atr_multiplier := 2.0
|}.

(** Three bars that do not move, read at the first one; their average true
    range is zero. *)
Definition flat_view : View :=
  view_at [100; 100; 100] [100; 100; 100] [100; 100; 100] [100; 100; 100]
          [10; 10; 10] [0; 0; 0] [10; 10; 10]
          0 nine_o_clock 50 50.

(** Five bars read at the second one, so that [len(self.data)] is 2; the
    bar at index 1 is a swing low and a swing high on twice the average
    volume, the bar at index 0 is neither. *)
Definition zone_view : View :=
  view_at [100; 100; 100; 100; 100]
          [101; 101; 105; 101; 101]
          [99; 99; 95; 99; 99]
          [100; 100; 100; 100; 100]
          [100; 100; 200; 100; 100]
          [1; 1; 1; 1; 1]
          [100; 100; 100; 100; 100]
          1 nine_o_clock 50 50.

(** Four bars without any swing, read at the second one. *)
Definition quiet_view : View :=
  view_at [100; 100; 100; 100] [101; 101; 101; 101] [99; 99; 99; 99]
          [100; 100; 100; 100] [100; 100; 100; 100] [1; 1; 1; 1]
          [100; 100; 100; 100]
          1 nine_o_clock 50 50.

(** Twelve bars with a bullish engulfing bar, swing low, high volume and gap
    at positions 5 and 7, read at [cursor]. *)
Definition setup_view (cursor : Z) (now : datetime) (rsi_now percK_now : Q) : View :=
  view_at [100; 100; 100; 100; 102; 98; 102; 98; 100; 100; 100; 100]
          [106; 106; 106; 106; 106; 106; 106; 106; 106; 106; 106; 106]
          [99; 99; 99; 99; 99; 95; 99; 95; 99; 99; 99; 99]
          [100; 100; 100; 100; 101; 105; 101; 105; 100; 100; 100; 100]
          [100; 100; 100; 100; 100; 200; 100; 200; 100; 100; 100; 100]
          [1; 1; 1; 1; 1; 1; 1; 1; 1; 1; 1; 1]
          [100; 100; 100; 100; 100; 100; 100; 100; 100; 100; 100; 100]
          cursor now rsi_now percK_now.

Definition ten_o_clock : datetime := mk_datetime 19000%Z (mk_time 10 0 0 0).
Definition next_day : datetime := mk_datetime 19001%Z (mk_time 9 0 0 0).

(** ** The trades of a run *)

Definition has_orders (entry : date * list order) : bool :=
  match snd entry with
  | [] => false
  | _ :: _ => true
  end.

(** The dates of the calls that placed orders, in the order of the run. *)
Definition traded_dates (log : list (date * list order)) : list date :=
  map fst (filter has_orders log).

(** ** The backtest driver *)

(** What the loop of [run_backtest] over [csv_files] does, in order: a feed
    added to the engine ([cerebro.adddata(CSVDataFeed(dataname=file))]) or a
    line printed. *)
Inductive effect : Type :=
| AddData (dataname : string)
| Print (text : string).

Definition csv_files : list string :=
  [ "Trading-bot1/data1.csv"; "Trading-bot1/data2.csv"; "Trading-bot1/data3.csv";
    "Trading-bot1/data4.csv"; "Trading-bot1/data5.csv" ]%string.

Section Backtest.

(** [os.path.exists]. *)
Variable path_exists : string -> bool.

Fixpoint load_feeds (files : list string) : list effect :=
  match files with
  | [] => []
  | file :: rest =>
      (if path_exists file then AddData file
       else Print ("File not found: " ++ file)%string)
      :: load_feeds rest
  end.

End Backtest.

Definition added_feeds (effects : list effect) : list string :=
  flat_map (fun e => match e with AddData f => [f] | Print _ => [] end) effects.

Definition printed_lines (effects : list effect) : list string :=
  flat_map (fun e => match e with AddData _ => [] | Print t => [t] end) effects.

(** ** Further example data *)

Definition unreadable_time_params : params := {|
  rr_ratio := 3.0;
  rsi_period := 14;
  volume_threshold := 1.5;
  fvg_threshold := 0.5;
  engulfing_lookback := 2;
  stop_loss_buffer := 0.995;
  trade_start_time := "8 am";
  trade_end_time := "22:00";
  use_atr := false;
  atr_period := 14;
  atr_multiplier := 2.0
|}.

(** A session meant to run over midnight. *)
Definition overnight_params : params := {|
  rr_ratio := 3.0;
  rsi_period := 14;
  volume_threshold := 1.5;
  fvg_threshold := 0.5;
  engulfing_lookback := 2;
  stop_loss_buffer := 0.995;
  trade_start_time := "22:00";
  trade_end_time := "06:00";
  use_atr := false;
  atr_period := 14;
  atr_multiplier := 2.0
|}.


(** ** Basic facts *)

Lemma Qltb_lt (x y : Q) : Qltb x y = true <-> x < y.
Proof.
  unfold Qltb. rewrite negb_true_iff.
  split; intro H.
  - apply Qnot_le_lt. intro Hle. apply Qle_bool_iff in Hle. congruence.
  - destruct (Qle_bool y x) eqn:E; [|reflexivity].
    apply Qle_bool_iff in E. exfalso. apply (Qlt_not_le _ _ H E).
Qed.

Lemma Qltb_ge (x y : Q) : Qltb x y = false <-> y <= x.
Proof.
  unfold Qltb. rewrite negb_false_iff. apply Qle_bool_iff.
Qed.

Lemma Qgtb_gt (x y : Q) : Qgtb x y = true <-> y < x.
Proof. apply Qltb_lt. Qed.

Lemma range_In (a b i : Z) : In i (range a b) <-> (a <= i < b)%Z.
Proof.
  unfold range. rewrite in_map_iff. split.
  - intros [k [Hk Hin]]. apply in_seq in Hin. lia.
  - intros H. exists (Z.to_nat (i - a)). split; [lia|].
    apply in_seq. lia.
Qed.

Lemma seq_from (s m : nat) : seq s m = map (fun k => (k + s)%nat) (seq 0 m).
Proof.
  revert s. induction m as [|m IH]; intros s; [reflexivity|].
  simpl. f_equal. rewrite (IH (S s)), <- (seq_shift m 0), map_map.
  apply map_ext. intros k. lia.
Qed.

Lemma range_split (a b i : Z) :
  (a <= i < b)%Z -> range a b = range a i ++ i :: range (i + 1) b.
Proof.
  intros H. unfold range.
  replace (Z.to_nat (b - a)) with (Z.to_nat (i - a) + S (Z.to_nat (b - (i + 1))))%nat by lia.
  rewrite seq_app, map_app. f_equal. simpl.
  f_equal; [lia|].
  rewrite (seq_from (S _)), map_map.
  apply map_ext. intros k. lia.
Qed.

Lemma eqb_long_false (s : string) : s <> "long"%string -> (s =? "long")%string = false.
Proof. intros H. apply String.eqb_neq. exact H. Qed.

Lemma eqb_short_false (s : string) : s <> "short"%string -> (s =? "short")%string = false.
Proof. intros H. apply String.eqb_neq. exact H. Qed.

Lemma time_compare_refl (t : time) : time_compare t t = Eq.
Proof.
  unfold time_compare. now rewrite !Z.compare_refl.
Qed.

Lemma lex_opp (c1 c2 : comparison) : CompOpp (lex c1 c2) = lex (CompOpp c1) (CompOpp c2).
Proof. now destruct c1. Qed.

Lemma time_compare_antisym (a b : time) :
  time_compare b a = CompOpp (time_compare a b).
Proof.
  unfold time_compare.
  rewrite !lex_opp, <- !Z.compare_antisym. reflexivity.
Qed.

Lemma time_leb_le (a b : time) : time_leb a b = true <-> time_le a b.
Proof.
  unfold time_leb, time_le.
  destruct (time_compare a b); split; congruence.
Qed.

Lemma time_lt_not_leb (a b : time) : time_lt a b -> time_leb b a = false.
Proof.
  unfold time_lt, time_leb. intros H.
  now rewrite (time_compare_antisym a b), H.
Qed.

Lemma calculate_take_profit_long (p : params) (entry_price stop_loss : Q) :
  calculate_take_profit p entry_price stop_loss "long"
  = Some (entry_price + (entry_price - stop_loss) * rr_ratio p).
Proof. reflexivity. Qed.

Lemma calculate_take_profit_short (p : params) (entry_price stop_loss : Q) :
  calculate_take_profit p entry_price stop_loss "short"
  = Some (entry_price - (stop_loss - entry_price) * rr_ratio p).
Proof. reflexivity. Qed.

Lemma Qmult_nonpos_nonneg (a b : Q) : a <= 0 -> 0 <= b -> a * b <= 0.
Proof.
  intros Ha Hb.
  pose proof (Qmult_le_0_compat (- a) b) as H.
  assert (H' : 0 <= - a * b) by (apply H; lra).
  lra.
Qed.

(** * Properties *)

(** ** Zone detector *)

(** C7. When the lows at [i - 1], [i], [i + 1] and the volume and average
    volume at [i] can be read, [is_demand_zone i] returns, and it returns
    true exactly when the low at [i] is strictly below both neighbouring
    lows and the volume at [i] strictly exceeds the average volume times
    [volume_threshold]; a low equal to a neighbour's is no swing low. *)
Theorem is_demand_zone_iff (p : params) (d : View) (i : Z)
    (low_prev low_i low_next vol avg : Q) :
  data_low d (i - 1)%Z = Some low_prev ->
  data_low d i = Some low_i ->
  data_low d (i + 1)%Z = Some low_next ->
  data_volume d i = Some vol ->
  avg_volume d i = Some avg ->
  exists b, is_demand_zone p d i = Ok b /\
            (b = true <->
             low_i < low_prev /\ low_i < low_next /\
             avg * volume_threshold p < vol).
Proof.
  intros Hp Hi Hn Hv Ha.
  unfold is_demand_zone, and_then, get. rewrite Hp, Hi, Hn, Hv, Ha. simpl.
  destruct (Qltb low_i low_prev) eqn:E1; simpl.
  - destruct (Qltb low_i low_next) eqn:E2; simpl.
    + destruct (Qgtb vol (avg * volume_threshold p)) eqn:E3;
        eexists; (split; [reflexivity|]).
      * apply Qltb_lt in E1, E2. apply Qgtb_gt in E3. tauto.
      * split; [discriminate|]. intros (_ & _ & H).
        apply Qgtb_gt in H. congruence.
    + eexists; split; [reflexivity|]. split; [discriminate|].
      intros (_ & H & _). apply Qltb_lt in H. congruence.
  - eexists; split; [reflexivity|]. split; [discriminate|].
    intros (H & _). apply Qltb_lt in H. congruence.
Qed.

Lemma is_demand_zone_iff_witness :
  exists b, is_demand_zone default_params swing_low_view 5 = Ok b /\
            (b = true <->
             95 < 99 /\ 95 < 99 /\ 100 * volume_threshold default_params < 200).
Proof.
  apply (is_demand_zone_iff default_params swing_low_view 5 99 95 99 200 100);
    reflexivity.
Defined.

(** ** Pattern detector *)

(** C10. The bullish test and the bearish test of [is_engulfing_pattern]
    never both succeed at one index, so testing the bearish branch first
    gives the same classification (and the same exception, if any). *)
Theorem engulfing_branches_exclusive (d : View) (i : Z) :
  ~ (bullish_engulfing d i = Ok true /\ bearish_engulfing d i = Ok true) /\
  is_engulfing_pattern d i = is_engulfing_pattern_bearish_first d i.
Proof.
  unfold is_engulfing_pattern, is_engulfing_pattern_bearish_first,
    bullish_engulfing, bearish_engulfing, and_then, get.
  destruct (data_close d i) as [c|]; simpl; [|split; [intros [H _]; discriminate|reflexivity]].
  destruct (data_open d (i - 1)%Z) as [o|]; simpl; [|split; [intros [H _]; discriminate|reflexivity]].
  destruct (Qgtb c o) eqn:Eg; destruct (Qltb c o) eqn:El; simpl.
  - apply Qgtb_gt in Eg. apply Qltb_lt in El. exfalso.
    apply (Qlt_irrefl c). now apply Qlt_trans with o.
  - destruct (data_open d i) as [o'|]; simpl; [|split; [intros [H _]; discriminate|reflexivity]].
    destruct (data_close d (i - 1)%Z) as [c'|]; simpl; [|split; [intros [H _]; discriminate|reflexivity]].
    split; [intros [_ H]; discriminate|].
    destruct (Qltb o' c'); reflexivity.
  - destruct (data_open d i) as [o'|]; simpl; [|split; [intros [H _]; discriminate|reflexivity]].
    destruct (data_close d (i - 1)%Z) as [c'|]; simpl; [|split; [intros [H _]; discriminate|reflexivity]].
    split; [intros [H _]; discriminate|].
    destruct (Qgtb o' c'); reflexivity.
  - split; [intros [H _]; discriminate|reflexivity].
Qed.

(** ** Session gate *)

(** C9. With both configured times readable, [is_within_trading_hours]
    returns, and it admits the bar exactly when the Oslo time of day [t] of
    its timestamp satisfies [start <= t <= end].  A time strictly before the
    start or strictly after the end is rejected, a time equal to the start or
    to the end of a window [start <= end] is admitted, and a rejected bar
    makes [next] return without placing orders or touching
    [last_trade_date]. *)
Theorem session_gate_window
    (strptime_HM : string -> result time)
    (astimezone_oslo : datetime -> datetime)
    (p : params) (d : View) (start_time end_time : time) :
  strptime_HM (trade_start_time p) = Ok start_time ->
  strptime_HM (trade_end_time p) = Ok end_time ->
  let t := dt_time (astimezone_oslo (data_datetime d)) in
  exists b,
    is_within_trading_hours strptime_HM astimezone_oslo p d = Ok b /\
    (b = true <-> time_le start_time t /\ time_le t end_time) /\
    (time_lt t start_time -> b = false) /\
    (time_lt end_time t -> b = false) /\
    (time_le start_time end_time -> t = start_time \/ t = end_time -> b = true) /\
    (b = false ->
     forall last_trade_date,
       next strptime_HM astimezone_oslo p d last_trade_date
       = Ok (last_trade_date, [])).
Proof.
  intros Hs He t.
  exists (time_leb start_time t && time_leb t end_time).
  split; [|split; [|split; [|split; [|split]]]].
  - unfold is_within_trading_hours. rewrite Hs, He. reflexivity.
  - rewrite andb_true_iff, !time_leb_le. tauto.
  - intros H. now rewrite (time_lt_not_leb _ _ H).
  - intros H. rewrite (time_lt_not_leb _ _ H). apply andb_false_r.
  - intros Hse [Ht|Ht]; rewrite Ht; apply andb_true_iff; split;
      apply time_leb_le; trivial; unfold time_le;
      rewrite time_compare_refl; discriminate.
  - intros Hb ltd. unfold next, is_within_trading_hours.
    rewrite Hs, He. simpl. fold t. rewrite Hb. reflexivity.
Qed.

Lemma session_gate_window_witness :
  parse_HM (trade_start_time default_params) = Ok (mk_time 8 0 0 0) /\
  parse_HM (trade_end_time default_params) = Ok (mk_time 22 0 0 0) /\
  exists b,
    is_within_trading_hours parse_HM (shift_hours 1) default_params swing_low_view
    = Ok b /\
    (b = true <-> time_le (mk_time 8 0 0 0) (mk_time 10 0 0 0) /\
                  time_le (mk_time 10 0 0 0) (mk_time 22 0 0 0)) /\
    (time_lt (mk_time 10 0 0 0) (mk_time 8 0 0 0) -> b = false) /\
    (time_lt (mk_time 22 0 0 0) (mk_time 10 0 0 0) -> b = false) /\
    (time_le (mk_time 8 0 0 0) (mk_time 22 0 0 0) ->
     mk_time 10 0 0 0 = mk_time 8 0 0 0 \/ mk_time 10 0 0 0 = mk_time 22 0 0 0 ->
     b = true) /\
    (b = false ->
     forall last_trade_date,
       next parse_HM (shift_hours 1) default_params swing_low_view last_trade_date
       = Ok (last_trade_date, [])).
Proof.
  split; [reflexivity|]. split; [reflexivity|].
  apply (session_gate_window parse_HM (shift_hours 1) default_params
           swing_low_view (mk_time 8 0 0 0) (mk_time 22 0 0 0));
    reflexivity.
Defined.

(** ** Risk calculator *)

(** C4, as the code has it.  For a risk-reward ratio [rr_ratio >= 0] and a
    direction long or short, [calculate_take_profit] returns a price [tp]
    with [|tp - entry| = rr_ratio * |entry - stop_loss|], on the side of
    entry away from the stop-loss.  It is [entry + (entry - stop_loss) *
    rr_ratio] for long and [entry - (stop_loss - entry) * rr_ratio] for
    short, which is entry plus (long) or minus (short) that distance when
    the stop-loss lies on its own side of entry: at or below entry for long,
    at or above for short. *)
Theorem take_profit_distance (p : params) (entry_price stop_loss : Q)
    (direction : string) :
  0 <= rr_ratio p ->
  direction = "long"%string \/ direction = "short"%string ->
  let distance := rr_ratio p * Qabs (entry_price - stop_loss) in
  exists tp,
    calculate_take_profit p entry_price stop_loss direction = Some tp /\
    Qabs (tp - entry_price) == distance /\
    (stop_loss < entry_price -> entry_price <= tp) /\
    (entry_price < stop_loss -> tp <= entry_price) /\
    (direction = "long"%string ->
     tp == entry_price + (entry_price - stop_loss) * rr_ratio p /\
     (stop_loss <= entry_price -> tp == entry_price + distance)) /\
    (direction = "short"%string ->
     tp == entry_price - (stop_loss - entry_price) * rr_ratio p /\
     (entry_price <= stop_loss -> tp == entry_price - distance)).
Proof.
  intros Hrr Hdir distance. subst distance.
  destruct Hdir as [-> | ->];
    [rewrite calculate_take_profit_long | rewrite calculate_take_profit_short];
    eexists; (split; [reflexivity|]);
    destruct (Qlt_le_dec entry_price stop_loss) as [Hlt|Hle].
  - rewrite (Qabs_neg (entry_price - stop_loss)) by lra.
    pose proof (Qmult_nonpos_nonneg (entry_price - stop_loss) (rr_ratio p)) as Hm.
    assert (H : entry_price + (entry_price - stop_loss) * rr_ratio p
                - entry_price <= 0) by lra.
    split; [rewrite (Qabs_neg _ H); lra|].
    repeat split; try discriminate; intros; lra.
  - rewrite (Qabs_pos (entry_price - stop_loss)) by lra.
    pose proof (Qmult_le_0_compat (entry_price - stop_loss) (rr_ratio p)) as Hm.
    assert (H : 0 <= entry_price + (entry_price - stop_loss) * rr_ratio p
                     - entry_price) by lra.
    split; [rewrite (Qabs_pos _ H); lra|].
    repeat split; try discriminate; intros; lra.
  - rewrite (Qabs_neg (entry_price - stop_loss)) by lra.
    pose proof (Qmult_le_0_compat (stop_loss - entry_price) (rr_ratio p)) as Hm.
    assert (H : entry_price - (stop_loss - entry_price) * rr_ratio p
                - entry_price <= 0) by lra.
    split; [rewrite (Qabs_neg _ H); lra|].
    repeat split; try discriminate; intros; lra.
  - rewrite (Qabs_pos (entry_price - stop_loss)) by lra.
    pose proof (Qmult_nonpos_nonneg (stop_loss - entry_price) (rr_ratio p)) as Hm.
    assert (H : 0 <= entry_price - (stop_loss - entry_price) * rr_ratio p
                     - entry_price) by lra.
    split; [rewrite (Qabs_pos _ H); lra|].
    pose proof (Qmult_le_0_compat (stop_loss - entry_price) (rr_ratio p)) as Hm'.
    repeat split; try discriminate; intros; lra.
Qed.

Lemma take_profit_distance_witness :
  exists tp,
    calculate_take_profit default_params 100 98 "long" = Some tp /\
    Qabs (tp - 100) == rr_ratio default_params * Qabs (100 - 98) /\
    tp == 100 + rr_ratio default_params * Qabs (100 - 98).
Proof.
  destruct (take_profit_distance default_params 100 98 "long")
    as (tp & Htp & Habs & _ & _ & Hlong & _).
  - vm_compute. discriminate.
  - left. reflexivity.
  - exists tp. split; [exact Htp|]. split; [exact Habs|].
    apply Hlong; [reflexivity|]. vm_compute. discriminate.
Defined.

(** C4 as stated fails for a stop-loss on the wrong side of entry: a long
    trade entered at 100 with its stop at 102 gets the take-profit 94, not
    [100 + 3 * |100 - 102| = 106]. *)
Lemma take_profit_wrong_side_stop :
  exists tp,
    calculate_take_profit default_params 100 102 "long" = Some tp /\
    tp == 94 /\
    ~ tp == 100 + rr_ratio default_params * Qabs (100 - 102).
Proof.
  eexists. split; [reflexivity|]. split; [reflexivity|].
  intro H. vm_compute in H. discriminate.
Qed.

(** C3, as the code has it.  No risk-calculator method raises on a
    direction other than "long" and "short": [calculate_stop_loss] returns
    [entry * 1.02], the value of its fallback for every direction that is
    not "long", without reading the series, and [calculate_take_profit],
    [calculate_atr_stop_loss] and [calculate_atr_take_profit] return
    [None]. *)
Theorem invalid_direction_returns (p : params) (d : View)
    (entry_price stop_loss atr_value : Q) (direction : string) :
  direction <> "long"%string ->
  direction <> "short"%string ->
  calculate_stop_loss p d entry_price direction = Ok (entry_price * 1.02) /\
  calculate_take_profit p entry_price stop_loss direction = None /\
  calculate_atr_stop_loss p entry_price direction atr_value = None /\
  calculate_atr_take_profit p entry_price direction atr_value = None.
Proof.
  intros Hl Hs.
  unfold calculate_stop_loss, calculate_take_profit, calculate_atr_stop_loss,
    calculate_atr_take_profit.
  rewrite (eqb_long_false _ Hl), (eqb_short_false _ Hs).
  repeat split; reflexivity.
Qed.

Lemma invalid_direction_returns_witness :
  calculate_stop_loss default_params falling_view 100 "sideways" = Ok (100 * 1.02) /\
  calculate_take_profit default_params 100 98 "sideways" = None /\
  calculate_atr_stop_loss default_params 100 "sideways" 1 = None /\
  calculate_atr_take_profit default_params 100 "sideways" 1 = None.
Proof.
  apply (invalid_direction_returns default_params falling_view 100 98 1 "sideways");
    discriminate.
Defined.

(** C3 as stated fails: with the direction "sideways" the stop-loss
    computation returns a price and the take-profit computation returns
    [None]; neither raises. *)
Lemma invalid_direction_not_rejected :
  "sideways"%string <> "long"%string /\
  "sideways"%string <> "short"%string /\
  ~ raises (calculate_stop_loss default_params falling_view 100 "sideways") /\
  calculate_stop_loss default_params falling_view 100 "sideways" = Ok (100 * 1.02) /\
  calculate_take_profit default_params 100 98 "sideways" = None.
Proof.
  split; [discriminate|]. split; [discriminate|].
  split; [intro H; exact H|]. split; reflexivity.
Qed.

(** *** The zone scan of [calculate_stop_loss] *)

Section StopLossScan.

Variable p : params.
Variable d : View.
Variable entry_price : Q.

Lemma long_loop_hit (k : Z) (l : Q) (rest : list Z) :
  qualifies_long p d entry_price k l ->
  stop_loss_long_loop p d entry_price (k :: rest)
  = Ok (Some (l * stop_loss_buffer p)).
Proof.
  intros (Hz & Hl & Hlt). simpl. unfold and_then, get.
  rewrite Hz, Hl. simpl.
  apply Qltb_lt in Hlt. rewrite Hlt. reflexivity.
Qed.

Lemma long_loop_pass (j : Z) (rest : list Z) :
  passed_long p d entry_price j ->
  stop_loss_long_loop p d entry_price (j :: rest)
  = stop_loss_long_loop p d entry_price rest.
Proof.
  intros [Hz | (l & Hz & Hl & Hle)]; simpl; unfold and_then, get; rewrite Hz; simpl.
  - reflexivity.
  - rewrite Hl. simpl. apply Qltb_ge in Hle. rewrite Hle. reflexivity.
Qed.

Lemma long_loop_all_pass (indices : list Z) :
  (forall j, In j indices -> passed_long p d entry_price j) ->
  stop_loss_long_loop p d entry_price indices = Ok None.
Proof.
  induction indices as [|j rest IH]; intros H; [reflexivity|].
  rewrite long_loop_pass by (apply H; now left).
  apply IH. intros j' Hj'. apply H. now right.
Qed.

Lemma long_loop_first (pre post : list Z) (k : Z) (l : Q) :
  (forall j, In j pre -> passed_long p d entry_price j) ->
  qualifies_long p d entry_price k l ->
  stop_loss_long_loop p d entry_price (pre ++ k :: post)
  = Ok (Some (l * stop_loss_buffer p)).
Proof.
  induction pre as [|j pre IH]; intros Hpre Hk; simpl app.
  - now apply long_loop_hit.
  - rewrite long_loop_pass by (apply Hpre; now left).
    apply IH; [|exact Hk]. intros j' Hj'. apply Hpre. now right.
Qed.


Lemma short_loop_hit (k : Z) (h : Q) (rest : list Z) :
  qualifies_short p d entry_price k h ->
  stop_loss_short_loop p d entry_price (k :: rest)
  = Ok (Some (h * (2 - stop_loss_buffer p))).
Proof.
  intros (Hz & Hh & Hlt). simpl. unfold and_then, get.
  rewrite Hz, Hh. simpl.
  apply Qgtb_gt in Hlt. rewrite Hlt. reflexivity.
Qed.

Lemma short_loop_pass (j : Z) (rest : list Z) :
  passed_short p d entry_price j ->
  stop_loss_short_loop p d entry_price (j :: rest)
  = stop_loss_short_loop p d entry_price rest.
Proof.
  intros [Hz | (h & Hz & Hh & Hle)]; simpl; unfold and_then, get; rewrite Hz; simpl.
  - reflexivity.
  - rewrite Hh. simpl. unfold Qgtb. apply Qltb_ge in Hle. rewrite Hle. reflexivity.
Qed.

Lemma short_loop_all_pass (indices : list Z) :
  (forall j, In j indices -> passed_short p d entry_price j) ->
  stop_loss_short_loop p d entry_price indices = Ok None.
Proof.
  induction indices as [|j rest IH]; intros H; [reflexivity|].
  rewrite short_loop_pass by (apply H; now left).
  apply IH. intros j' Hj'. apply H. now right.
Qed.

Lemma short_loop_first (pre post : list Z) (k : Z) (h : Q) :
  (forall j, In j pre -> passed_short p d entry_price j) ->
  qualifies_short p d entry_price k h ->
  stop_loss_short_loop p d entry_price (pre ++ k :: post)
  = Ok (Some (h * (2 - stop_loss_buffer p))).
Proof.
  induction pre as [|j pre IH]; intros Hpre Hk; simpl app.
  - now apply short_loop_hit.
  - rewrite short_loop_pass by (apply Hpre; now left).
    apply IH; [|exact Hk]. intros j' Hj'. apply Hpre. now right.
Qed.


End StopLossScan.








(** X17. The scan of [calculate_stop_loss] while its zone tests return.
    If the test returned false at every index before [k] and [k] is a demand
    zone with its low below entry, the long stop-loss is that low times
    [stop_loss_buffer]; for short, the high of the supply zone above entry
    times [2 - stop_loss_buffer].  If the test returned false at every index
    of [0 .. len - 1], the result is [entry * 0.98] for long and
    [entry * 1.02] for short. *)
Theorem stop_loss_first_zone (p : params) (d : View) (entry_price : Q) :
  (forall k l,
      (0 <= k < data_len d)%Z ->
      (forall j, (0 <= j < k)%Z -> passed_long p d entry_price j) ->
      qualifies_long p d entry_price k l ->
      calculate_stop_loss p d entry_price "long" = Ok (l * stop_loss_buffer p)) /\
  ((forall j, (0 <= j < data_len d)%Z -> passed_long p d entry_price j) ->
   calculate_stop_loss p d entry_price "long" = Ok (entry_price * 0.98)) /\
  (forall k h,
      (0 <= k < data_len d)%Z ->
      (forall j, (0 <= j < k)%Z -> passed_short p d entry_price j) ->
      qualifies_short p d entry_price k h ->
      calculate_stop_loss p d entry_price "short" = Ok (h * (2 - stop_loss_buffer p))) /\
  ((forall j, (0 <= j < data_len d)%Z -> passed_short p d entry_price j) ->
   calculate_stop_loss p d entry_price "short" = Ok (entry_price * 1.02)).
Proof.
  unfold calculate_stop_loss.
  change ("long" =? "long")%string with true.
  change ("short" =? "long")%string with false.
  change ("short" =? "short")%string with true.
  cbv iota.
  repeat split.
  - intros k l Hk Hpre Hq.
    rewrite (range_split 0 (data_len d) k Hk).
    rewrite (long_loop_first p d entry_price _ _ k l); [reflexivity| |exact Hq].
    intros j Hj. apply Hpre. now apply range_In.
  - intros Hall. rewrite long_loop_all_pass; [reflexivity|].
    intros j Hj. apply Hall. now apply range_In.
  - intros k h Hk Hpre Hq.
    rewrite (range_split 0 (data_len d) k Hk).
    rewrite (short_loop_first p d entry_price _ _ k h); [reflexivity| |exact Hq].
    intros j Hj. apply Hpre. now apply range_In.
  - intros Hall. rewrite short_loop_all_pass; [reflexivity|].
    intros j Hj. apply Hall. now apply range_In.
Qed.

Lemma stop_loss_first_zone_witness :
  calculate_stop_loss default_params zone_view 100 "long"
  = Ok (95 * stop_loss_buffer default_params) /\
  calculate_stop_loss default_params quiet_view 100 "long" = Ok (100 * 0.98) /\
  calculate_stop_loss default_params zone_view 100 "short"
  = Ok (105 * (2 - stop_loss_buffer default_params)) /\
  calculate_stop_loss default_params quiet_view 100 "short" = Ok (100 * 1.02).
Proof.
  destruct (stop_loss_first_zone default_params zone_view 100)
    as (Hlong & _ & Hshort & _).
  destruct (stop_loss_first_zone default_params quiet_view 100)
    as (_ & Hlong_none & _ & Hshort_none).
  split; [|split; [|split]].
  - apply (Hlong 1%Z 95).
    + change (data_len zone_view) with 2%Z. lia.
    + intros j Hj. assert (j = 0%Z) as -> by lia. left. reflexivity.
    + repeat split.
  - apply Hlong_none. change (data_len quiet_view) with 2%Z. intros j Hj.
    assert (j = 0%Z \/ j = 1%Z) as [-> | ->] by lia; left; reflexivity.
  - apply (Hshort 1%Z 105).
    + change (data_len zone_view) with 2%Z. lia.
    + intros j Hj. assert (j = 0%Z) as -> by lia. left. reflexivity.
    + repeat split.
  - apply Hshort_none. change (data_len quiet_view) with 2%Z. intros j Hj.
    assert (j = 0%Z \/ j = 1%Z) as [-> | ->] by lia; left; reflexivity.
Defined.

(** C8.  The scan does not reach its fallback on every series without a
    qualifying zone.  [falling_view] reads the lows 99, 98, 97 and flat
    highs at the last of three bars, with entry 100: no index of the scan
    [0 .. len - 1] is a demand zone below entry or a supply zone above it,
    yet the long scan raises [IndexError] at index 0, where the low 97 is
    below the previous low and the test goes on to read the bar after the
    last, and the short scan raises at index 1, the first it reads past the
    end.  Neither returns [entry * 0.98] or [entry * 1.02]. *)
Theorem stop_loss_scan_raises_without_zone :
  data_len falling_view = 3%Z /\
  (forall j l, (0 <= j < data_len falling_view)%Z ->
               ~ qualifies_long default_params falling_view 100 j l) /\
  (forall j h, (0 <= j < data_len falling_view)%Z ->
               ~ qualifies_short default_params falling_view 100 j h) /\
  calculate_stop_loss default_params falling_view 100 "long" = Raise IndexError /\
  calculate_stop_loss default_params falling_view 100 "short" = Raise IndexError.
Proof.
  split; [reflexivity|].
  split; [|split; [|split; reflexivity]].
  - intros j l Hj [Hz _]. change (data_len falling_view) with 3%Z in Hj.
    assert (j = 0 \/ j = 1 \/ j = 2)%Z as [-> | [-> | ->]] by lia;
      discriminate Hz.
  - intros j h Hj [Hz _]. change (data_len falling_view) with 3%Z in Hj.
    assert (j = 0 \/ j = 1 \/ j = 2)%Z as [-> | [-> | ->]] by lia;
      discriminate Hz.
Qed.

(** ** Queries at the ends of the series *)

Lemma held_get (l : line) (i : Z) : held l i -> exists x, get l i = Ok x.
Proof.
  unfold held, get. destruct (l i) as [x|]; [now exists x|congruence].
Qed.

Lemma is_demand_zone_returns (p : params) (d : View) (i : Z) :
  held (data_low d) (i - 1) -> held (data_low d) i -> held (data_low d) (i + 1) ->
  held (data_volume d) i -> held (avg_volume d) i ->
  exists b, is_demand_zone p d i = Ok b.
Proof.
  intros H1 H2 H3 H4 H5.
  destruct (held_get _ _ H1) as (lp & E1), (held_get _ _ H2) as (l & E2),
    (held_get _ _ H3) as (ln & E3), (held_get _ _ H4) as (v & E4),
    (held_get _ _ H5) as (a & E5).
  unfold is_demand_zone, and_then. rewrite E1, E2, E3, E4, E5. simpl.
  destruct (Qltb l lp); simpl; [|now eexists].
  destruct (Qltb l ln); simpl; [|now eexists].
  destruct (Qgtb v (a * volume_threshold p)); now eexists.
Qed.

Lemma is_supply_zone_returns (p : params) (d : View) (i : Z) :
  held (data_high d) (i - 1) -> held (data_high d) i -> held (data_high d) (i + 1) ->
  held (data_volume d) i -> held (avg_volume d) i ->
  exists b, is_supply_zone p d i = Ok b.
Proof.
  intros H1 H2 H3 H4 H5.
  destruct (held_get _ _ H1) as (hp & E1), (held_get _ _ H2) as (h & E2),
    (held_get _ _ H3) as (hn & E3), (held_get _ _ H4) as (v & E4),
    (held_get _ _ H5) as (a & E5).
  unfold is_supply_zone, and_then. rewrite E1, E2, E3, E4, E5. simpl.
  destruct (Qgtb h hp); simpl; [|now eexists].
  destruct (Qgtb h hn); simpl; [|now eexists].
  destruct (Qgtb v (a * volume_threshold p)); now eexists.
Qed.

(** C6, as the code has it.  A classifier returns without raising when
    every position it reads is held: [i - 1], [i], [i + 1] for the zones
    (with the volume and average volume at [i]), [i - 1] and [i] for the
    fair-value gap and the engulfing pattern.  None of them checks its
    index: when the bar at [i + 1] is not held, as for a query at the last
    bar, a zone test raises [IndexError] if the low (high) at [i] is below
    (above) the one at [i - 1], and returns false otherwise, Python's [and]
    not reading [i + 1] then. *)
Theorem classifiers_at_boundaries (p : params) (d : View) (i : Z) :
  (held (data_low d) (i - 1) -> held (data_low d) i -> held (data_low d) (i + 1) ->
   held (data_volume d) i -> held (avg_volume d) i ->
   exists b, is_demand_zone p d i = Ok b) /\
  (held (data_high d) (i - 1) -> held (data_high d) i -> held (data_high d) (i + 1) ->
   held (data_volume d) i -> held (avg_volume d) i ->
   exists b, is_supply_zone p d i = Ok b) /\
  (held (data_close d) i -> held (data_open d) (i - 1) ->
   exists b, is_fair_value_gap p d i = Ok b) /\
  (held (data_close d) i -> held (data_open d) (i - 1) ->
   held (data_open d) i -> held (data_close d) (i - 1) ->
   exists e, is_engulfing_pattern d i = Ok e) /\
  (forall low_i low_prev,
      data_low d i = Some low_i ->
      data_low d (i - 1)%Z = Some low_prev ->
      data_low d (i + 1)%Z = None ->
      is_demand_zone p d i
      = if Qltb low_i low_prev then Raise IndexError else Ok false) /\
  (forall high_i high_prev,
      data_high d i = Some high_i ->
      data_high d (i - 1)%Z = Some high_prev ->
      data_high d (i + 1)%Z = None ->
      is_supply_zone p d i
      = if Qgtb high_i high_prev then Raise IndexError else Ok false).
Proof.
  repeat match goal with |- _ /\ _ => split end.
  - apply is_demand_zone_returns.
  - apply is_supply_zone_returns.
  - intros H1 H2.
    destruct (held_get _ _ H1) as (c & E1), (held_get _ _ H2) as (o & E2).
    unfold is_fair_value_gap. rewrite E1, E2. simpl. now eexists.
  - intros H1 H2 H3 H4.
    destruct (held_get _ _ H1) as (c & E1), (held_get _ _ H2) as (o & E2),
      (held_get _ _ H3) as (o' & E3), (held_get _ _ H4) as (c' & E4).
    unfold is_engulfing_pattern, bullish_engulfing, bearish_engulfing, and_then.
    rewrite E1, E2, E3, E4. simpl.
    destruct (Qgtb c o); simpl.
    + destruct (Qltb o' c'); simpl; [now eexists|].
      destruct (Qltb c o); simpl; [|now eexists].
      destruct (Qgtb o' c'); now eexists.
    + destruct (Qltb c o); simpl; [|now eexists].
      destruct (Qgtb o' c'); now eexists.
  - intros l lp H1 H2 H3.
    unfold is_demand_zone, and_then, get. rewrite H1, H2, H3. simpl.
    destruct (Qltb l lp); reflexivity.
  - intros h hp H1 H2 H3.
    unfold is_supply_zone, and_then, get. rewrite H1, H2, H3. simpl.
    destruct (Qgtb h hp); reflexivity.
Qed.

Lemma classifiers_at_boundaries_witness :
  (exists b, is_demand_zone default_params zone_view 1 = Ok b) /\
  (exists b, is_supply_zone default_params zone_view 1 = Ok b) /\
  (exists b, is_fair_value_gap default_params zone_view 1 = Ok b) /\
  (exists e, is_engulfing_pattern zone_view 1 = Ok e) /\
  is_demand_zone default_params falling_view 0
  = (if Qltb 97 98 then Raise IndexError else Ok false) /\
  is_supply_zone default_params falling_view 0
  = (if Qgtb 101 101 then Raise IndexError else Ok false).
Proof.
  destruct (classifiers_at_boundaries default_params zone_view 1)
    as (Hd & Hs & Hg & He & _).
  destruct (classifiers_at_boundaries default_params falling_view 0)
    as (_ & _ & _ & _ & Hlast_low & Hlast_high).
  split; [apply Hd; discriminate|].
  split; [apply Hs; discriminate|].
  split; [apply Hg; discriminate|].
  split; [apply He; discriminate|].
  split; [apply Hlast_low; reflexivity|apply Hlast_high; reflexivity].
Defined.

(** C6 as stated fails.  [falling_view] reads the lows 99, 98, 97 at the
    last bar: the low at index 0 is 97, the low at index -1 is 98 and no bar
    is held at index 1.  The zone query at index 0 raises [IndexError]
    instead of returning false, and so does the stop-loss scan, whose first
    query it is. *)
Lemma zone_query_at_last_bar_raises :
  data_low falling_view 0%Z = Some 97 /\
  data_low falling_view (0 - 1)%Z = Some 98 /\
  data_low falling_view (0 + 1)%Z = None /\
  is_demand_zone default_params falling_view 0 = Raise IndexError /\
  calculate_stop_loss default_params falling_view 100 "long" = Raise IndexError.
Proof.
  repeat split.
Qed.

(** ** Decision loop *)

Section DecisionLoop.

Variable p : params.
Variable d : View.

Lemma next_loop_long (last_trade_date : option date) (k : Z) (rest : list Z) :
  long_setup p d k ->
  next_loop p d last_trade_date (k :: rest)
  = (orders <- enter_trade p d "long" k ;; Ok (Some (dt_date (data_datetime d)), orders)).
Proof.
  intros (He & Hz & Hm & Hg).
  cbn [next_loop]. unfold and_then. rewrite He. cbn [bind is_bullish].
  rewrite Hz. cbn [bind]. rewrite Hm, Hg. reflexivity.
Qed.

Lemma next_loop_short (last_trade_date : option date) (k : Z) (rest : list Z) :
  short_setup p d k ->
  next_loop p d last_trade_date (k :: rest)
  = (orders <- enter_trade p d "short" k ;; Ok (Some (dt_date (data_datetime d)), orders)).
Proof.
  intros (He & Hz & Hm & Hg).
  cbn [next_loop]. unfold and_then. rewrite He. cbn [bind is_bullish is_bearish].
  rewrite Hz. cbn [bind]. rewrite Hm, Hg. reflexivity.
Qed.

Lemma next_loop_skip (last_trade_date : option date) (j : Z) (rest : list Z) :
  no_setup p d j ->
  next_loop p d last_trade_date (j :: rest)
  = next_loop p d last_trade_date rest.
Proof.
  intros (((e & He) & (zd & Hzd) & (zs & Hzs) & (g & Hg)) & Hnl & Hns).
  unfold long_setup in Hnl. unfold short_setup in Hns.
  cbn [next_loop]. unfold and_then.
  rewrite He, Hzd, Hzs, Hg in *. cbn [bind].
  destruct e as [[|]|]; cbn [is_bullish is_bearish].
  - destruct zd; [|reflexivity].
    destruct (is_bullish_momentum d); [|reflexivity].
    destruct g; [|reflexivity].
    exfalso. apply Hnl. now repeat split.
  - destruct zs; [|reflexivity].
    destruct (is_bearish_momentum d); [|reflexivity].
    destruct g; [|reflexivity].
    exfalso. apply Hns. now repeat split.
  - reflexivity.
Qed.

Lemma next_loop_all_skip (last_trade_date : option date) (indices : list Z) :
  (forall j, In j indices -> no_setup p d j) ->
  next_loop p d last_trade_date indices = Ok (last_trade_date, []).
Proof.
  induction indices as [|j rest IH]; intros H; [reflexivity|].
  rewrite next_loop_skip by (apply H; now left).
  apply IH. intros j' Hj'. apply H. now right.
Qed.

Lemma next_loop_skip_prefix (last_trade_date : option date) (pre rest : list Z) :
  (forall j, In j pre -> no_setup p d j) ->
  next_loop p d last_trade_date (pre ++ rest)
  = next_loop p d last_trade_date rest.
Proof.
  induction pre as [|j pre IH]; intros H; [reflexivity|].
  simpl app. rewrite next_loop_skip by (apply H; now left).
  apply IH. intros j' Hj'. apply H. now right.
Qed.

(** [enter_trade], when it returns for a long or a short, has placed the
    three orders of one trade, entered at the close of its index. *)
Lemma enter_trade_bracket (direction : string) (index : Z) (orders : list order) :
  direction = "long"%string \/ direction = "short"%string ->
  enter_trade p d direction index = Ok orders ->
  exists entry_price stop_loss take_profit,
    data_close d index = Some entry_price /\
    orders = bracket direction stop_loss take_profit /\
    (use_atr p = false ->
     calculate_stop_loss p d entry_price direction = Ok stop_loss /\
     calculate_take_profit p entry_price stop_loss direction = Some take_profit) /\
    (use_atr p = true ->
     exists atr_value,
       atr d index = Some atr_value /\
       calculate_atr_stop_loss p entry_price direction atr_value = Some stop_loss /\
       calculate_atr_take_profit p entry_price direction atr_value = Some take_profit).
Proof.
  intros Hdir. unfold enter_trade, get.
  destruct (data_close d index) as [c|]; cbn [bind]; [|discriminate].
  destruct (use_atr p).
  - destruct (atr d index) as [a|]; cbn [bind]; [|discriminate].
    destruct Hdir as [-> | ->]; intros H; injection H as <-;
      do 3 eexists; (split; [reflexivity|]); (split; [reflexivity|]);
      (split; [discriminate|]); intros _; eexists; repeat split.
  - destruct (calculate_stop_loss p d c direction) as [sl|e] eqn:Hsl;
      cbn [bind]; [|destruct Hdir as [-> | ->]; discriminate].
    destruct Hdir as [-> | ->]; intros H; injection H as <-;
      do 3 eexists; (split; [reflexivity|]); (split; [reflexivity|]);
      (split; [|discriminate]); intros _; split; [exact Hsl|reflexivity | exact Hsl|reflexivity].
Qed.

Lemma long_loop_returns (entry_price : Q) (indices : list Z) :
  (forall i, In i indices -> zone_readable d i) ->
  exists found, stop_loss_long_loop p d entry_price indices = Ok found.
Proof.
  induction indices as [|i rest IH]; intros H; [now eexists|].
  destruct (H i (or_introl eq_refl)) as (H1 & H2 & H3 & _ & _ & _ & H4 & H5).
  destruct (is_demand_zone_returns p d i H1 H2 H3 H4 H5) as (b & Hb).
  destruct (held_get _ _ H2) as (l & Hl).
  cbn [stop_loss_long_loop]. unfold and_then. rewrite Hb, Hl. cbn [bind].
  destruct b; [destruct (Qltb l entry_price)|]; try (now eexists);
    apply IH; intros i' Hi'; apply H; now right.
Qed.

Lemma short_loop_returns (entry_price : Q) (indices : list Z) :
  (forall i, In i indices -> zone_readable d i) ->
  exists found, stop_loss_short_loop p d entry_price indices = Ok found.
Proof.
  induction indices as [|i rest IH]; intros H; [now eexists|].
  destruct (H i (or_introl eq_refl)) as (_ & _ & _ & H1 & H2 & H3 & H4 & H5).
  destruct (is_supply_zone_returns p d i H1 H2 H3 H4 H5) as (b & Hb).
  destruct (held_get _ _ H2) as (h & Hh).
  cbn [stop_loss_short_loop]. unfold and_then. rewrite Hb, Hh. cbn [bind].
  destruct b; [destruct (Qgtb h entry_price)|]; try (now eexists);
    apply IH; intros i' Hi'; apply H; now right.
Qed.

(** With every position of its scan held, [calculate_stop_loss] returns. *)
Lemma calculate_stop_loss_returns (entry_price : Q) (direction : string) :
  scan_readable d ->
  exists stop_loss, calculate_stop_loss p d entry_price direction = Ok stop_loss.
Proof.
  intros H. unfold calculate_stop_loss.
  assert (Hin : forall i, In i (range 0 (data_len d)) -> zone_readable d i)
    by (intros i Hi; apply H; now apply range_In).
  destruct (long_loop_returns entry_price _ Hin) as (fl & Hl).
  destruct (short_loop_returns entry_price _ Hin) as (fs & Hs).
  rewrite Hl, Hs.
  destruct (direction =? "long")%string; [destruct fl; now eexists|].
  destruct (direction =? "short")%string; [destruct fs; now eexists|].
  now eexists.
Qed.

(** With the close at its index held, and the average true range there in
    ATR mode or the positions of the stop-loss scan in RR-ratio mode,
    [enter_trade] returns, having placed the orders of one trade. *)
Lemma enter_trade_returns (direction : string) (index : Z) :
  direction = "long"%string \/ direction = "short"%string ->
  held (data_close d) index ->
  (use_atr p = true -> held (atr d) index) ->
  (use_atr p = false -> scan_readable d) ->
  exists stop_loss take_profit,
    enter_trade p d direction index = Ok (bracket direction stop_loss take_profit).
Proof.
  intros Hdir Hc Hatr Hscan.
  destruct (held_get _ _ Hc) as (c & Ec).
  unfold enter_trade. rewrite Ec. cbn [bind].
  destruct (use_atr p).
  - destruct (held_get _ _ (Hatr eq_refl)) as (a & Ea). rewrite Ea. cbn [bind].
    destruct Hdir as [-> | ->]; do 2 eexists; reflexivity.
  - destruct (calculate_stop_loss_returns c direction (Hscan eq_refl)) as (sl & Hsl).
    rewrite Hsl. cbn [bind].
    destruct Hdir as [-> | ->]; do 2 eexists; reflexivity.
Qed.

(** The loop of [next] either leaves the state alone and places nothing,
    or places orders and records today's date. *)
Lemma next_loop_outcome (last_trade_date last_trade_date' : option date)
    (indices : list Z) (orders : list order) :
  next_loop p d last_trade_date indices = Ok (last_trade_date', orders) ->
  (last_trade_date' = last_trade_date /\ orders = []) \/
  (last_trade_date' = Some (dt_date (data_datetime d)) /\ orders <> []).
Proof.
  induction indices as [|i rest IH]; cbn [next_loop].
  - intros H. injection H as <- <-. now left.
  - destruct (is_engulfing_pattern d i) as [e|]; cbn [bind]; [|discriminate].
    destruct (_ &? _) as [[|]|]; cbn [bind]; [| |discriminate].
    + destruct (enter_trade p d "long" i) as [os|] eqn:Het; cbn [bind]; [|discriminate].
      intros H. injection H as <- <-. right. split; [reflexivity|].
      destruct (enter_trade_bracket _ _ _ (or_introl eq_refl) Het)
        as (c & sl & tp & _ & -> & _). discriminate.
    + destruct (_ &? _) as [[|]|]; cbn [bind]; [| |discriminate].
      * destruct (enter_trade p d "short" i) as [os|] eqn:Het; cbn [bind]; [|discriminate].
        intros H. injection H as <- <-. right. split; [reflexivity|].
        destruct (enter_trade_bracket _ _ _ (or_intror eq_refl) Het)
          as (c & sl & tp & _ & -> & _). discriminate.
      * exact IH.
Qed.

End DecisionLoop.

(** C5. When [is_within_trading_hours] admits the bar and
    [last_trade_date] is not the bar's date, [next] scans the indices of
    [range(engulfing_lookback, len - 1)], that is [engulfing_lookback <= i <
    len - 1], in ascending order.  At the first index [k] where the four
    predicates of a direction hold (engulfing pattern, zone of the matching
    kind, momentum, fair-value gap), the earlier indices having none, it
    calls [enter_trade] for that direction at [k], sets [last_trade_date] to
    the bar's date and scans no further.  [enter_trade], when it returns, has
    placed the three orders of exactly one trade, and it returns whenever
    the positions it reads are held.  If no index of the range has the four
    predicates, [next] places no order and leaves [last_trade_date] as it
    was. *)
Theorem next_first_setup
    (strptime_HM : string -> result time)
    (astimezone_oslo : datetime -> datetime)
    (p : params) (d : View) (last_trade_date : option date) :
  is_within_trading_hours strptime_HM astimezone_oslo p d = Ok true ->
  last_trade_date <> Some (dt_date (data_datetime d)) ->
  (forall k,
      (engulfing_lookback p <= k < data_len d - 1)%Z ->
      (forall j, (engulfing_lookback p <= j < k)%Z -> no_setup p d j) ->
      (long_setup p d k ->
       next strptime_HM astimezone_oslo p d last_trade_date
       = (orders <- enter_trade p d "long" k ;;
          Ok (Some (dt_date (data_datetime d)), orders))) /\
      (short_setup p d k ->
       next strptime_HM astimezone_oslo p d last_trade_date
       = (orders <- enter_trade p d "short" k ;;
          Ok (Some (dt_date (data_datetime d)), orders)))) /\
  (forall k direction orders,
      direction = "long"%string \/ direction = "short"%string ->
      enter_trade p d direction k = Ok orders ->
      exists entry_price stop_loss take_profit,
        data_close d k = Some entry_price /\
        orders = bracket direction stop_loss take_profit) /\
  (forall k direction,
      direction = "long"%string \/ direction = "short"%string ->
      held (data_close d) k ->
      (use_atr p = true -> held (atr d) k) ->
      (use_atr p = false -> scan_readable d) ->
      exists stop_loss take_profit,
        enter_trade p d direction k
        = Ok (bracket direction stop_loss take_profit)) /\
  ((forall j, (engulfing_lookback p <= j < data_len d - 1)%Z -> no_setup p d j) ->
   next strptime_HM astimezone_oslo p d last_trade_date
   = Ok (last_trade_date, [])).
Proof.
  intros Hgate Hdate.
  assert (Hnext : next strptime_HM astimezone_oslo p d last_trade_date
                  = next_loop p d last_trade_date
                      (range (engulfing_lookback p) (data_len d - 1))).
  { unfold next. rewrite Hgate. cbn [bind negb].
    destruct last_trade_date as [x|]; cbn [date_eqb]; [|reflexivity].
    destruct (Z.eqb_spec x (dt_date (data_datetime d))) as [->|]; [|reflexivity].
    now contradiction Hdate. }
  rewrite Hnext. split; [|split; [|split]].
  - intros k Hk Hpre.
    rewrite (range_split _ _ k Hk).
    rewrite next_loop_skip_prefix
      by (intros j Hj; apply Hpre; now apply range_In).
    split; intros Hsetup.
    + now apply next_loop_long.
    + now apply next_loop_short.
  - intros k direction orders Hdir Het.
    destruct (enter_trade_bracket p d direction k orders Hdir Het)
      as (c & sl & tp & Hc & Ho & _).
    now exists c, sl, tp.
  - intros k direction. apply enter_trade_returns.
  - intros Hall. apply next_loop_all_skip.
    intros j Hj. apply Hall. now apply range_In.
Qed.

Lemma next_first_setup_witness :
  next parse_HM (shift_hours 1) default_params
       (setup_view 4 ten_o_clock 25 15) None
  = Ok (Some 19000%Z,
        bracket "long" (95 * 0.995) (105 + (105 - 95 * 0.995) * 3.0)) /\
  next parse_HM (shift_hours 1) default_params
       (setup_view 3 nine_o_clock 50 50) None
  = Ok (None, []).
Proof.
  destruct (next_first_setup parse_HM (shift_hours 1) default_params
              (setup_view 4 ten_o_clock 25 15) None)
    as (Hfirst & _ & _ & _); [reflexivity|discriminate|].
  destruct (next_first_setup parse_HM (shift_hours 1) default_params
              (setup_view 3 nine_o_clock 50 50) None)
    as (_ & _ & _ & Hnone); [reflexivity|discriminate|].
  split.
  - destruct (Hfirst 3%Z) as [Hlong _].
    + change (data_len (setup_view 4 ten_o_clock 25 15)) with 5%Z.
      change (engulfing_lookback default_params) with 2%Z. lia.
    + change (engulfing_lookback default_params) with 2%Z. intros j Hj.
      assert (j = 2%Z) as -> by lia.
      split; [|split].
      * repeat split; eexists; reflexivity.
      * intros (_ & H & _). discriminate H.
      * intros (H & _). discriminate H.
    + rewrite Hlong by (repeat split). reflexivity.
  - apply Hnone.
    change (data_len (setup_view 3 nine_o_clock 50 50)) with 4%Z.
    change (engulfing_lookback default_params) with 2%Z.
    intros j Hj. assert (j = 2%Z) as -> by lia.
    split; [|split].
    + repeat split; eexists; reflexivity.
    + intros (_ & _ & H & _). discriminate H.
    + intros (H & _). discriminate H.
Defined.

(** ** One trade per calendar date *)

Lemma datetime_le_date (a b : datetime) :
  datetime_le a b -> (dt_date a <= dt_date b)%Z.
Proof. intros [H | [H _]]; lia. Qed.

Section OneTradePerDate.

Variable strptime_HM : string -> result time.
Variable astimezone_oslo : datetime -> datetime.
Variable p : params.

Lemma next_outcome (d : View) (last_trade_date last_trade_date' : option date)
    (orders : list order) :
  next strptime_HM astimezone_oslo p d last_trade_date
  = Ok (last_trade_date', orders) ->
  (last_trade_date' = last_trade_date /\ orders = []) \/
  (last_trade_date' = Some (dt_date (data_datetime d)) /\ orders <> [] /\
   last_trade_date <> Some (dt_date (data_datetime d))).
Proof.
  unfold next.
  destruct (is_within_trading_hours _ _ _ _) as [[|]|]; cbn [bind negb];
    [| |discriminate].
  - destruct (date_eqb last_trade_date (dt_date (data_datetime d))) eqn:Heq.
    + intros H. injection H as <- <-. now left.
    + intros H. destruct (next_loop_outcome _ _ _ _ _ _ H) as [Hl | [Hr1 Hr2]].
      * now left.
      * right. repeat split; trivial.
        intros ->. cbn [date_eqb] in Heq. rewrite Z.eqb_refl in Heq. discriminate.
  - intros H. injection H as <- <-. now left.
Qed.

Lemma run_dates (views : list View) (last_trade_date : option date)
    (day : date) (orders : list order) :
  In (day, orders) (run strptime_HM astimezone_oslo p last_trade_date views) ->
  exists d, In d views /\ dt_date (data_datetime d) = day.
Proof.
  revert last_trade_date.
  induction views as [|d rest IH]; intros ltd; cbn [run]; [contradiction|].
  destruct (next _ _ _ _ _) as [[ltd' os]|]; [|contradiction].
  intros [H | H].
  - injection H as <- _. exists d. split; [now left|reflexivity].
  - destruct (IH _ H) as (d' & Hin & Hd'). exists d'. split; [now right|exact Hd'].
Qed.

(** After a trade on [day], no call on a bar of that date places orders,
    as long as the bars that follow are not dated before [day]. *)
Lemma run_after_trade (views : list View) (day : date) (orders : list order) :
  timestamp_order views ->
  (forall d, In d views -> (day <= dt_date (data_datetime d))%Z) ->
  In (day, orders) (run strptime_HM astimezone_oslo p (Some day) views) ->
  orders = [].
Proof.
  induction views as [|d rest IH]; intros Hsorted Hafter; cbn [run]; [contradiction|].
  apply StronglySorted_inv in Hsorted. destruct Hsorted as [Hrest Hhead].
  destruct (next _ _ _ _ _) as [[ltd' os]|] eqn:Hnext; [|contradiction].
  intros Hin.
  destruct (next_outcome _ _ _ _ Hnext) as [[-> ->] | (-> & Hos & Hne)].
  - destruct Hin as [H | H].
    + now injection H as _ <-.
    + apply IH; trivial. intros d' Hd'. apply Hafter. now right.
  - destruct Hin as [H | H].
    + injection H as H _. congruence.
    + exfalso. destruct (run_dates _ _ _ _ H) as (d' & Hd' & Hday).
      rewrite Forall_forall in Hhead.
      pose proof (datetime_le_date _ _ (Hhead d' Hd')) as Hle.
      pose proof (Hafter d (or_introl eq_refl)) as Hge.
      assert (day <> dt_date (data_datetime d)) by congruence.
      lia.
Qed.

End OneTradePerDate.

(** C1. In a run over bars in timestamp order, from any initial
    [last_trade_date], two calls of [next] on bars of the same date never
    both place orders: once a call on a bar dated [day] has emitted a trade,
    every later call on a bar dated [day] returns without emitting. *)
Theorem one_trade_per_date
    (strptime_HM : string -> result time)
    (astimezone_oslo : datetime -> datetime)
    (p : params) (views : list View) (last_trade_date : option date)
    (i j : nat) (day : date) (first later : list order) :
  timestamp_order views ->
  (i < j)%nat ->
  nth_error (run strptime_HM astimezone_oslo p last_trade_date views) i
  = Some (day, first) ->
  nth_error (run strptime_HM astimezone_oslo p last_trade_date views) j
  = Some (day, later) ->
  emits first ->
  ~ emits later.
Proof.
  revert last_trade_date i j.
  induction views as [|d rest IH]; intros ltd i j Hsorted Hij Hi Hj Hfirst.
  - destruct i; discriminate.
  - cbn [run] in Hi, Hj.
    pose proof Hsorted as Hsorted'.
    apply StronglySorted_inv in Hsorted'. destruct Hsorted' as [Hrest Hhead].
    destruct (next _ _ _ _ _) as [[ltd' os]|] eqn:Hnext; [|destruct i; discriminate].
    destruct j as [|j]; [lia|]. cbn [nth_error] in Hj.
    destruct i as [|i]; cbn [nth_error] in Hi.
    + injection Hi as <- <-.
      destruct (next_outcome _ _ _ _ _ _ _ Hnext) as [[_ ->] | (-> & _ & _)];
        [now contradiction Hfirst|].
      apply nth_error_In in Hj.
      apply run_after_trade in Hj; trivial.
      * intros Hlater. now apply Hlater.
      * intros d' Hd'. rewrite Forall_forall in Hhead.
        now apply datetime_le_date, Hhead.
    + apply (IH ltd' i j); trivial. lia.
Qed.

Lemma one_trade_per_date_witness :
  run parse_HM (shift_hours 1) default_params None
      [ setup_view 3 nine_o_clock 25 15;
        setup_view 4 ten_o_clock 25 15;
        setup_view 5 next_day 25 15 ]
  = [ (19000%Z, bracket "long" (95 * 0.995) (105 + (105 - 95 * 0.995) * 3.0));
      (19000%Z, []);
      (19001%Z, bracket "long" (95 * 0.995) (105 + (105 - 95 * 0.995) * 3.0)) ] /\
  ~ emits (@nil order).
Proof.
  split; [reflexivity|].
  apply (one_trade_per_date parse_HM (shift_hours 1) default_params
           [ setup_view 3 nine_o_clock 25 15;
             setup_view 4 ten_o_clock 25 15;
             setup_view 5 next_day 25 15 ]
           None 0 1 19000%Z
           (bracket "long" (95 * 0.995) (105 + (105 - 95 * 0.995) * 3.0)) []).
  - repeat first [apply SSorted_cons | apply SSorted_nil
                  | apply Forall_cons | apply Forall_nil];
      unfold datetime_le;
      first [left; reflexivity | right; split; [reflexivity|discriminate]].
  - lia.
  - reflexivity.
  - reflexivity.
  - discriminate.
Defined.

(** * Further properties *)

(** ** Zones and patterns *)

Lemma is_demand_zone_true_inv (p : params) (d : View) (i : Z) :
  is_demand_zone p d i = Ok true ->
  exists low_prev low_i low_next,
    data_low d (i - 1)%Z = Some low_prev /\
    data_low d i = Some low_i /\
    data_low d (i + 1)%Z = Some low_next /\
    low_i < low_prev /\ low_i < low_next.
Proof.
  unfold is_demand_zone, and_then, get.
  destruct (data_low d i) as [l|]; cbn [bind]; [|discriminate].
  destruct (data_low d (i - 1)%Z) as [lp|]; cbn [bind]; [|discriminate].
  destruct (Qltb l lp) eqn:E1; [|discriminate].
  destruct (data_low d (i + 1)%Z) as [ln|]; cbn [bind]; [|discriminate].
  destruct (Qltb l ln) eqn:E2; [|discriminate].
  intros _. exists lp, l, ln. apply Qltb_lt in E1, E2. now repeat split.
Qed.

Lemma is_supply_zone_true_inv (p : params) (d : View) (i : Z) :
  is_supply_zone p d i = Ok true ->
  exists high_prev high_i high_next,
    data_high d (i - 1)%Z = Some high_prev /\
    data_high d i = Some high_i /\
    data_high d (i + 1)%Z = Some high_next /\
    high_prev < high_i /\ high_next < high_i.
Proof.
  unfold is_supply_zone, and_then, get.
  destruct (data_high d i) as [h|]; cbn [bind]; [|discriminate].
  destruct (data_high d (i - 1)%Z) as [hp|]; cbn [bind]; [|discriminate].
  destruct (Qgtb h hp) eqn:E1; [|discriminate].
  destruct (data_high d (i + 1)%Z) as [hn|]; cbn [bind]; [|discriminate].
  destruct (Qgtb h hn) eqn:E2; [|discriminate].
  intros _. exists hp, h, hn. apply Qgtb_gt in E1, E2. now repeat split.
Qed.

(** X1. When the highs at [i - 1], [i], [i + 1] and the volume and average
    volume at [i] can be read, [is_supply_zone i] returns, and it returns
    true exactly when the high at [i] is strictly above both neighbouring
    highs and the volume at [i] strictly exceeds the average volume times
    [volume_threshold]. *)
Theorem is_supply_zone_iff (p : params) (d : View) (i : Z)
    (high_prev high_i high_next vol avg : Q) :
  data_high d (i - 1)%Z = Some high_prev ->
  data_high d i = Some high_i ->
  data_high d (i + 1)%Z = Some high_next ->
  data_volume d i = Some vol ->
  avg_volume d i = Some avg ->
  exists b, is_supply_zone p d i = Ok b /\
            (b = true <->
             high_prev < high_i /\ high_next < high_i /\
             avg * volume_threshold p < vol).
Proof.
  intros Hp Hi Hn Hv Ha.
  unfold is_supply_zone, and_then, get. rewrite Hp, Hi, Hn, Hv, Ha. simpl.
  destruct (Qgtb high_i high_prev) eqn:E1; simpl.
  - destruct (Qgtb high_i high_next) eqn:E2; simpl.
    + destruct (Qgtb vol (avg * volume_threshold p)) eqn:E3;
        eexists; (split; [reflexivity|]).
      * apply Qgtb_gt in E1, E2, E3. tauto.
      * split; [discriminate|]. intros (_ & _ & H).
        apply Qgtb_gt in H. congruence.
    + eexists; split; [reflexivity|]. split; [discriminate|].
      intros (_ & H & _). apply Qgtb_gt in H. congruence.
  - eexists; split; [reflexivity|]. split; [discriminate|].
    intros (H & _). apply Qgtb_gt in H. congruence.
Qed.

Lemma is_supply_zone_iff_witness :
  exists b, is_supply_zone default_params zone_view 1 = Ok b /\
            (b = true <->
             101 < 105 /\ 101 < 105 /\ 100 * volume_threshold default_params < 200).
Proof.
  apply (is_supply_zone_iff default_params zone_view 1 101 105 101 200 100);
    reflexivity.
Defined.

(** X2. Two neighbouring indices are never both demand zones, and never
    both supply zones: a strict swing low (high) at [i] rules one out at
    [i + 1]. *)
Theorem neighbouring_zones_exclusive (p : params) (d : View) (i : Z) :
  ~ (is_demand_zone p d i = Ok true /\ is_demand_zone p d (i + 1) = Ok true) /\
  ~ (is_supply_zone p d i = Ok true /\ is_supply_zone p d (i + 1) = Ok true).
Proof.
  split; intros [H1 H2].
  - apply is_demand_zone_true_inv in H1, H2.
    destruct H1 as (a & b & c & _ & Hb & Hc & _ & Hbc).
    destruct H2 as (a' & b' & c' & Ha' & Hb' & _ & Hba' & _).
    replace (i + 1 - 1)%Z with i in Ha' by lia.
    assert (a' = b) by congruence. assert (b' = c) by congruence. subst.
    apply (Qlt_irrefl b). now apply Qlt_trans with c.
  - apply is_supply_zone_true_inv in H1, H2.
    destruct H1 as (a & b & c & _ & Hb & Hc & _ & Hbc).
    destruct H2 as (a' & b' & c' & Ha' & Hb' & _ & Hba' & _).
    replace (i + 1 - 1)%Z with i in Ha' by lia.
    assert (a' = b) by congruence. assert (b' = c) by congruence. subst.
    apply (Qlt_irrefl b). now apply Qlt_trans with c.
Qed.

(** X3. With the close at [i] and the open at [i - 1] readable,
    [is_fair_value_gap i] returns true exactly when the close lies more than
    [fvg_threshold] above or below that open; in particular a negative
    threshold makes every such index a gap, and with a threshold of zero or
    more a close equal to the open is none. *)
Theorem is_fair_value_gap_iff (p : params) (d : View) (i : Z) (close_i open_prev : Q) :
  data_close d i = Some close_i ->
  data_open d (i - 1)%Z = Some open_prev ->
  exists b, is_fair_value_gap p d i = Ok b /\
            (b = true <->
             fvg_threshold p < close_i - open_prev \/
             fvg_threshold p < open_prev - close_i) /\
            (fvg_threshold p < 0 -> b = true) /\
            (0 <= fvg_threshold p -> close_i == open_prev -> b = false).
Proof.
  intros Hc Ho. unfold is_fair_value_gap, get. rewrite Hc, Ho. cbn [bind].
  eexists. split; [reflexivity|].
  assert (Hiff : Qgtb (Qabs (close_i - open_prev)) (fvg_threshold p) = true <->
                 fvg_threshold p < close_i - open_prev \/
                 fvg_threshold p < open_prev - close_i).
  { rewrite Qgtb_gt.
    destruct (Qlt_le_dec (close_i - open_prev) 0) as [Hneg|Hpos].
    - rewrite (Qabs_neg (close_i - open_prev)) by lra. split; [intros; right|intros [|]]; lra.
    - rewrite (Qabs_pos (close_i - open_prev)) by lra. split; [intros; left|intros [|]]; lra. }
  split; [exact Hiff|]. split.
  - intros Hneg. apply Hiff.
    destruct (Qlt_le_dec (close_i - open_prev) 0); [right|left]; lra.
  - intros Hthr Heq.
    apply not_true_is_false. intro E. apply Hiff in E. destruct E; lra.
Qed.

Lemma is_fair_value_gap_iff_witness :
  exists b, is_fair_value_gap default_params (setup_view 3 nine_o_clock 25 15) 2 = Ok b /\
            (b = true <->
             fvg_threshold default_params < 105 - 102 \/
             fvg_threshold default_params < 102 - 105).
Proof.
  destruct (is_fair_value_gap_iff default_params (setup_view 3 nine_o_clock 25 15)
              2 105 102) as (b & Hb & Hiff & _); [reflexivity|reflexivity|].
  exists b. split; assumption.
Defined.

(** X4. With the opens and closes at [i - 1] and [i] readable,
    [is_engulfing_pattern i] returns bullish exactly when the close at [i] is
    above the open at [i - 1] and the open at [i] below the close at
    [i - 1], bearish exactly when both comparisons are the other way round,
    and [None] in every other case, a tie in either comparison included. *)
Theorem is_engulfing_pattern_iff (d : View) (i : Z)
    (open_prev close_prev open_i close_i : Q) :
  data_open d (i - 1)%Z = Some open_prev ->
  data_close d (i - 1)%Z = Some close_prev ->
  data_open d i = Some open_i ->
  data_close d i = Some close_i ->
  exists e, is_engulfing_pattern d i = Ok e /\
            (e = Some bullish <-> open_prev < close_i /\ open_i < close_prev) /\
            (e = Some bearish <-> close_i < open_prev /\ close_prev < open_i) /\
            (close_i == open_prev \/ open_i == close_prev -> e = None).
Proof.
  intros Hop Hcp Ho Hc.
  unfold is_engulfing_pattern, bullish_engulfing, bearish_engulfing, and_then, get.
  rewrite Hop, Hcp, Ho, Hc. cbn [bind].
  destruct (Qgtb close_i open_prev) eqn:E1; destruct (Qltb open_i close_prev) eqn:E2;
    destruct (Qltb close_i open_prev) eqn:E3; destruct (Qgtb open_i close_prev) eqn:E4;
    cbn [bind]; eexists; (split; [reflexivity|]);
    try apply Qgtb_gt in E1; try apply Qltb_ge in E1;
    try apply Qltb_lt in E2; try apply Qltb_ge in E2;
    try apply Qltb_lt in E3; try apply Qltb_ge in E3;
    try apply Qgtb_gt in E4; try apply Qltb_ge in E4;
    (split; [split; [try discriminate; intros _; split; solve [assumption|lra]
                    |intros [? ?]; solve [reflexivity|lra]]|]);
    (split; [split; [try discriminate; intros _; split; solve [assumption|lra]
                    |intros [? ?]; solve [reflexivity|lra]]|]);
    intros [H|H]; solve [reflexivity|lra].
Qed.

Lemma is_engulfing_pattern_iff_witness :
  exists e, is_engulfing_pattern (setup_view 3 nine_o_clock 25 15) 2 = Ok e /\
            (e = Some bullish <-> 102 < 105 /\ 98 < 101).
Proof.
  destruct (is_engulfing_pattern_iff (setup_view 3 nine_o_clock 25 15) 2
              102 101 98 105) as (e & He & Hbull & _); try reflexivity.
  exists e. split; assumption.
Defined.

(** ** Momentum and the decision loop *)

Lemma range_nil (a b : Z) : (b <= a)%Z -> range a b = [].
Proof.
  intros H. unfold range. replace (Z.to_nat (b - a)) with 0%nat by lia. reflexivity.
Qed.

Lemma range_cons (a b : Z) : (a < b)%Z -> range a b = a :: range (a + 1) b.
Proof.
  intros H. rewrite (range_split a b a) by lia.
  now rewrite (range_nil a a) by lia.
Qed.

(** The part of a range before one of its elements is the range up to it. *)
Lemma range_decompose (pre post : list Z) (k : Z) :
  forall a b, range a b = pre ++ k :: post -> pre = range a k /\ (a <= k < b)%Z.
Proof.
  induction pre as [|x pre IH]; intros a b H.
  - destruct (Z_lt_le_dec a b) as [Hlt|Hle].
    + rewrite (range_cons a b Hlt) in H. injection H as <- _.
      rewrite range_nil by lia. split; [reflexivity|lia].
    + rewrite (range_nil a b Hle) in H. discriminate.
  - destruct (Z_lt_le_dec a b) as [Hlt|Hle].
    + rewrite (range_cons a b Hlt) in H. simpl in H. injection H as <- H.
      destruct (IH _ _ H) as [-> Hk].
      rewrite (range_cons a k) by lia. split; [reflexivity|lia].
    + rewrite (range_nil a b Hle) in H. discriminate.
Qed.

Lemma momentum_exclusive (d : View) :
  ~ (is_bullish_momentum d = true /\ is_bearish_momentum d = true).
Proof.
  unfold is_bullish_momentum, is_bearish_momentum.
  intros [Hb Hs]. apply andb_true_iff in Hb, Hs.
  destruct Hb as [Hb _], Hs as [Hs _].
  apply Qltb_lt in Hb. apply Qgtb_gt in Hs. lra.
Qed.

Lemma long_test_true (p : params) (d : View) (i : Z) (e : option engulfing) :
  Ok (is_bullish e) &? is_demand_zone p d i
    &? Ok (is_bullish_momentum d) &? is_fair_value_gap p d i = Ok true ->
  e = Some bullish /\ is_demand_zone p d i = Ok true /\
  is_bullish_momentum d = true /\ is_fair_value_gap p d i = Ok true.
Proof.
  unfold and_then. cbn [bind].
  destruct e as [[|]|]; cbn [is_bullish]; try discriminate.
  destruct (is_demand_zone p d i) as [[|]|]; cbn [bind]; try discriminate.
  destruct (is_bullish_momentum d); try discriminate.
  destruct (is_fair_value_gap p d i) as [[|]|]; try discriminate.
  now repeat split.
Qed.

Lemma short_test_true (p : params) (d : View) (i : Z) (e : option engulfing) :
  Ok (is_bearish e) &? is_supply_zone p d i
    &? Ok (is_bearish_momentum d) &? is_fair_value_gap p d i = Ok true ->
  e = Some bearish /\ is_supply_zone p d i = Ok true /\
  is_bearish_momentum d = true /\ is_fair_value_gap p d i = Ok true.
Proof.
  unfold and_then. cbn [bind].
  destruct e as [[|]|]; cbn [is_bearish]; try discriminate.
  destruct (is_supply_zone p d i) as [[|]|]; cbn [bind]; try discriminate.
  destruct (is_bearish_momentum d); try discriminate.
  destruct (is_fair_value_gap p d i) as [[|]|]; try discriminate.
  now repeat split.
Qed.

Lemma long_test_of_setup (p : params) (d : View) (i : Z) (e : option engulfing) :
  is_engulfing_pattern d i = Ok e ->
  long_setup p d i ->
  Ok (is_bullish e) &? is_demand_zone p d i
    &? Ok (is_bullish_momentum d) &? is_fair_value_gap p d i = Ok true.
Proof.
  intros He (He' & Hz & Hm & Hg). rewrite He in He'. injection He' as ->.
  unfold and_then. cbn [bind is_bullish]. rewrite Hz. cbn [bind].
  now rewrite Hm, Hg.
Qed.

Lemma short_test_of_setup (p : params) (d : View) (i : Z) (e : option engulfing) :
  is_engulfing_pattern d i = Ok e ->
  short_setup p d i ->
  Ok (is_bearish e) &? is_supply_zone p d i
    &? Ok (is_bearish_momentum d) &? is_fair_value_gap p d i = Ok true.
Proof.
  intros He (He' & Hz & Hm & Hg). rewrite He in He'. injection He' as ->.
  unfold and_then. cbn [bind is_bearish]. rewrite Hz. cbn [bind].
  now rewrite Hm, Hg.
Qed.

(** What a completed loop of [next] has seen: no setup at any index, or a
    setup at the index where it entered and none at the indices before. *)
Lemma next_loop_sound (p : params) (d : View)
    (last_trade_date last_trade_date' : option date)
    (indices : list Z) (orders : list order) :
  next_loop p d last_trade_date indices = Ok (last_trade_date', orders) ->
  (last_trade_date' = last_trade_date /\ orders = [] /\
   forall j, In j indices -> ~ long_setup p d j /\ ~ short_setup p d j) \/
  (exists pre k post,
      indices = pre ++ k :: post /\
      (forall j, In j pre -> ~ long_setup p d j /\ ~ short_setup p d j) /\
      last_trade_date' = Some (dt_date (data_datetime d)) /\
      ((long_setup p d k /\ enter_trade p d "long" k = Ok orders) \/
       (short_setup p d k /\ enter_trade p d "short" k = Ok orders))).
Proof.
  revert last_trade_date' orders.
  induction indices as [|i rest IH]; intros last_trade_date' orders; cbn [next_loop].
  - intros H. injection H as <- <-. left. repeat split; contradiction.
  - destruct (is_engulfing_pattern d i) as [e|] eqn:He; cbn [bind]; [|discriminate].
    destruct (Ok (is_bullish e) &? _) as [[|]|] eqn:Hlong; cbn [bind]; [| |discriminate].
    + destruct (enter_trade p d "long" i) as [os|] eqn:Het; cbn [bind]; [|discriminate].
      intros H. injection H as <- <-. right. exists [], i, rest.
      split; [reflexivity|]. split; [intros j []|]. split; [reflexivity|].
      left. split; [|exact Het].
      destruct (long_test_true _ _ _ _ Hlong) as (-> & Hz & Hm & Hg).
      now repeat split.
    + destruct (Ok (is_bearish e) &? _) as [[|]|] eqn:Hshort; cbn [bind]; [| |discriminate].
      * destruct (enter_trade p d "short" i) as [os|] eqn:Het; cbn [bind]; [|discriminate].
        intros H. injection H as <- <-. right. exists [], i, rest.
        split; [reflexivity|]. split; [intros j []|]. split; [reflexivity|].
        right. split; [|exact Het].
        destruct (short_test_true _ _ _ _ Hshort) as (-> & Hz & Hm & Hg).
        now repeat split.
      * assert (Hi : ~ long_setup p d i /\ ~ short_setup p d i).
        { split; intros Hs.
          - rewrite (long_test_of_setup _ _ _ _ He Hs) in Hlong. discriminate.
          - rewrite (short_test_of_setup _ _ _ _ He Hs) in Hshort. discriminate. }
        intros H.
        destruct (IH _ _ H) as [(-> & -> & Hall) | (pre & k & post & -> & Hpre & Hrest)].
        -- left. split; [reflexivity|]. split; [reflexivity|].
           intros j [<-|Hin]; [exact Hi|now apply Hall].
        -- right. exists (i :: pre), k, post. split; [reflexivity|].
           split; [|exact Hrest].
           intros j [<-|Hin]; [exact Hi|now apply Hpre].
Qed.

(** X5. Momentum is read once per bar and cannot be bullish and bearish at
    once (RSI below 30 and above 70), so no bar offers a long setup at one
    index and a short setup at another: the direction of a bar's trade is
    fixed by its momentum. *)
Theorem setups_one_direction_per_bar (p : params) (d : View) (i j : Z) :
  ~ (is_bullish_momentum d = true /\ is_bearish_momentum d = true) /\
  ~ (long_setup p d i /\ short_setup p d j).
Proof.
  split; [apply momentum_exclusive|].
  intros [(_ & _ & Hb & _) (_ & _ & Hs & _)].
  now apply (momentum_exclusive d).
Qed.

(** X6. Every trade [next] enters is backed by a setup.  A call that
    returns has either placed nothing and left [last_trade_date] alone, or
    it was admitted by the trading hours on a date not yet traded, found an
    index [k] of [range(engulfing_lookback, len - 1)] with the four
    predicates of one direction and none at the indices before it, placed
    the three orders of that direction's trade at [k] under the matching
    momentum, and set [last_trade_date] to the bar's date. *)
Theorem next_trade_has_setup
    (strptime_HM : string -> result time)
    (astimezone_oslo : datetime -> datetime)
    (p : params) (d : View) (last_trade_date last_trade_date' : option date)
    (orders : list order) :
  next strptime_HM astimezone_oslo p d last_trade_date
  = Ok (last_trade_date', orders) ->
  (orders = [] /\ last_trade_date' = last_trade_date) \/
  (is_within_trading_hours strptime_HM astimezone_oslo p d = Ok true /\
   last_trade_date <> Some (dt_date (data_datetime d)) /\
   last_trade_date' = Some (dt_date (data_datetime d)) /\
   exists k,
     (engulfing_lookback p <= k < data_len d - 1)%Z /\
     (forall j, (engulfing_lookback p <= j < k)%Z ->
                ~ long_setup p d j /\ ~ short_setup p d j) /\
     ((long_setup p d k /\ is_bullish_momentum d = true /\
       enter_trade p d "long" k = Ok orders /\
       exists stop_loss take_profit, orders = bracket "long" stop_loss take_profit) \/
      (short_setup p d k /\ is_bearish_momentum d = true /\
       enter_trade p d "short" k = Ok orders /\
       exists stop_loss take_profit, orders = bracket "short" stop_loss take_profit))).
Proof.
  unfold next.
  destruct (is_within_trading_hours _ _ _ _) as [[|]|]; cbn [bind negb];
    [| |discriminate].
  2: { intros H. injection H as <- <-. now left. }
  destruct (date_eqb last_trade_date (dt_date (data_datetime d))) eqn:Hdate.
  { intros H. injection H as <- <-. now left. }
  intros H.
  destruct (next_loop_sound _ _ _ _ _ _ H)
    as [(-> & -> & _) | (pre & k & post & Hrange & Hpre & -> & Hk)]; [now left|].
  right. split; [reflexivity|]. split.
  { intros ->. cbn [date_eqb] in Hdate. rewrite Z.eqb_refl in Hdate. discriminate. }
  split; [reflexivity|].
  destruct (range_decompose _ _ _ _ _ Hrange) as [-> Hin].
  exists k. split; [exact Hin|]. split.
  { intros j Hj. apply Hpre. now apply range_In. }
  destruct Hk as [[Hs Het] | [Hs Het]]; [left|right];
    (split; [exact Hs|]); (split; [apply Hs|]); (split; [exact Het|]).
  - destruct (enter_trade_bracket _ _ _ _ _ (or_introl eq_refl) Het)
      as (c & sl & tp & _ & Ho & _). now exists sl, tp.
  - destruct (enter_trade_bracket _ _ _ _ _ (or_intror eq_refl) Het)
      as (c & sl & tp & _ & Ho & _). now exists sl, tp.
Qed.

Lemma next_trade_has_setup_witness :
  exists k,
    (engulfing_lookback default_params <= k
     < data_len (setup_view 4 ten_o_clock 25 15) - 1)%Z /\
    long_setup default_params (setup_view 4 ten_o_clock 25 15) k /\
    ~ long_setup default_params (setup_view 4 ten_o_clock 25 15) 2.
Proof.
  destruct (next_trade_has_setup parse_HM (shift_hours 1) default_params
              (setup_view 4 ten_o_clock 25 15) None (Some 19000%Z)
              (bracket "long" (95 * 0.995) (105 + (105 - 95 * 0.995) * 3.0))
              eq_refl)
    as [[H _] | (_ & _ & _ & k & Hk & Hpre & [(Hs & _) | (_ & Hm & _)])].
  - discriminate H.
  - exists k. split; [exact Hk|]. split; [exact Hs|].
    change (engulfing_lookback default_params) with 2%Z in Hk, Hpre.
    change (data_len (setup_view 4 ten_o_clock 25 15)) with 5%Z in Hk.
    assert (k = 2%Z \/ k = 3%Z) as [-> | ->] by lia.
    + destruct Hs as (_ & Hz & _). discriminate Hz.
    + apply Hpre. lia.
  - discriminate Hm.
Defined.

(** X7. [next] returns at once, placing nothing and leaving
    [last_trade_date] alone, when the bar is outside the trading hours, when
    its date is the date already traded, or when the series is too short for
    the scan ([len - 1 <= engulfing_lookback]); in none of these cases does
    it read a price line, so no read of the series can fail it. *)
Theorem next_returns_early
    (strptime_HM : string -> result time)
    (astimezone_oslo : datetime -> datetime)
    (p : params) (d : View) (last_trade_date : option date) (within : bool) :
  is_within_trading_hours strptime_HM astimezone_oslo p d = Ok within ->
  within = false \/
  last_trade_date = Some (dt_date (data_datetime d)) \/
  (data_len d - 1 <= engulfing_lookback p)%Z ->
  next strptime_HM astimezone_oslo p d last_trade_date = Ok (last_trade_date, []).
Proof.
  intros Hgate Hcase. unfold next. rewrite Hgate. cbn [bind].
  destruct within; cbn [negb]; [|reflexivity].
  destruct Hcase as [H | [-> | H]]; [discriminate| |].
  - cbn [date_eqb]. now rewrite Z.eqb_refl.
  - destruct (date_eqb _ _); [reflexivity|].
    now rewrite range_nil.
Qed.

Lemma next_returns_early_witness :
  next parse_HM (shift_hours 1) default_params quiet_view None = Ok (None, []) /\
  next parse_HM (shift_hours 1) default_params
       (setup_view 4 ten_o_clock 25 15) (Some 19000%Z)
  = Ok (Some 19000%Z, []).
Proof.
  split.
  - apply (next_returns_early parse_HM (shift_hours 1) default_params
             quiet_view None true); [reflexivity|].
    right. right. vm_compute. discriminate.
  - apply (next_returns_early parse_HM (shift_hours 1) default_params
             (setup_view 4 ten_o_clock 25 15) (Some 19000%Z) true); [reflexivity|].
    right. left. reflexivity.
Defined.

(** X8. The configured session times are parsed on every call, before
    anything else: if [trade_start_time], or else [trade_end_time], is not
    readable, [next] raises the parser's exception on every bar, whatever
    the bar and the state, and a run ends at its first bar with nothing
    placed. *)
Theorem unreadable_session_times_raise
    (strptime_HM : string -> result time)
    (astimezone_oslo : datetime -> datetime)
    (p : params) (d : View) (last_trade_date : option date) (e : exn) :
  strptime_HM (trade_start_time p) = Raise e \/
  ((exists start_time, strptime_HM (trade_start_time p) = Ok start_time) /\
   strptime_HM (trade_end_time p) = Raise e) ->
  next strptime_HM astimezone_oslo p d last_trade_date = Raise e /\
  forall rest, run strptime_HM astimezone_oslo p last_trade_date (d :: rest) = [].
Proof.
  intros H.
  assert (Hnext : next strptime_HM astimezone_oslo p d last_trade_date = Raise e).
  { unfold next, is_within_trading_hours.
    destruct H as [-> | [(s & ->) ->]]; reflexivity. }
  split; [exact Hnext|]. intros rest. cbn [run]. now rewrite Hnext.
Qed.

Lemma unreadable_session_times_raise_witness :
  next parse_HM (shift_hours 1) unreadable_time_params
       (setup_view 4 ten_o_clock 25 15) None = Raise ValueError /\
  forall rest,
    run parse_HM (shift_hours 1) unreadable_time_params None
        (setup_view 4 ten_o_clock 25 15 :: rest) = [].
Proof.
  apply (unreadable_session_times_raise parse_HM (shift_hours 1)
           unreadable_time_params (setup_view 4 ten_o_clock 25 15) None ValueError).
  left. reflexivity.
Defined.

(** X9. The scan checks no index against the series: when it reaches an
    index [k] of its range whose close is not held, the indices before
    having no setup, [next] raises [IndexError]; no order is placed and
    [last_trade_date] is not set. *)
Theorem next_raises_at_unheld_bar
    (strptime_HM : string -> result time)
    (astimezone_oslo : datetime -> datetime)
    (p : params) (d : View) (last_trade_date : option date) (k : Z) :
  is_within_trading_hours strptime_HM astimezone_oslo p d = Ok true ->
  last_trade_date <> Some (dt_date (data_datetime d)) ->
  (engulfing_lookback p <= k < data_len d - 1)%Z ->
  (forall j, (engulfing_lookback p <= j < k)%Z -> no_setup p d j) ->
  data_close d k = None ->
  next strptime_HM astimezone_oslo p d last_trade_date = Raise IndexError.
Proof.
  intros Hgate Hdate Hk Hpre Hclose.
  unfold next. rewrite Hgate. cbn [bind negb].
  replace (date_eqb last_trade_date (dt_date (data_datetime d))) with false.
  - rewrite (range_split _ _ k Hk).
    rewrite next_loop_skip_prefix
      by (intros j Hj; apply Hpre; now apply range_In).
    cbn [next_loop].
    unfold is_engulfing_pattern, bullish_engulfing, and_then, get.
    rewrite Hclose. reflexivity.
  - destruct last_trade_date as [x|]; cbn [date_eqb]; [|reflexivity].
    symmetry. apply Z.eqb_neq. congruence.
Qed.

Lemma next_raises_at_unheld_bar_witness :
  next parse_HM (shift_hours 1) default_params
       (setup_view 10 ten_o_clock 25 15) None = Raise IndexError.
Proof.
  apply (next_raises_at_unheld_bar parse_HM (shift_hours 1) default_params
           (setup_view 10 ten_o_clock 25 15) None 2%Z).
  - reflexivity.
  - discriminate.
  - change (engulfing_lookback default_params) with 2%Z.
    change (data_len (setup_view 10 ten_o_clock 25 15)) with 11%Z. lia.
  - change (engulfing_lookback default_params) with 2%Z. intros j Hj. lia.
  - reflexivity.
Defined.

(** ** Entering a trade *)

(** X10. [enter_trade] reads the close at its index first and raises
    [IndexError] without it.  In ATR mode it returns exactly when that close
    and the average true range at the index are held, whatever the zones; in
    RR-ratio mode, with the close held, exactly when [calculate_stop_loss]
    returns for that close.  For a direction other than "long" and "short"
    it places no order. *)
Theorem enter_trade_reads (p : params) (d : View) (direction : string) (k : Z) :
  (data_close d k = None -> enter_trade p d direction k = Raise IndexError) /\
  (use_atr p = true ->
   ((exists orders, enter_trade p d direction k = Ok orders) <->
    held (data_close d) k /\ held (atr d) k)) /\
  (use_atr p = false ->
   forall entry_price,
     data_close d k = Some entry_price ->
     ((exists orders, enter_trade p d direction k = Ok orders) <->
      exists stop_loss, calculate_stop_loss p d entry_price direction = Ok stop_loss)) /\
  (direction <> "long"%string -> direction <> "short"%string ->
   forall orders, enter_trade p d direction k = Ok orders -> orders = []).
Proof.
  unfold enter_trade, get, held.
  split; [|split; [|split]].
  - intros ->. reflexivity.
  - intros Hmode. rewrite Hmode. split.
    + intros [os H].
      destruct (data_close d k) as [c|]; cbn [bind] in H; [|discriminate].
      destruct (atr d k) as [a|]; cbn [bind] in H; [|discriminate].
      split; discriminate.
    + intros [Hc Ha].
      destruct (data_close d k) as [c|]; [|congruence].
      destruct (atr d k) as [a|]; [|congruence]. cbn [bind].
      destruct (direction =? "long")%string; [now eexists|].
      destruct (direction =? "short")%string; now eexists.
  - intros Hmode c Hc. rewrite Hmode, Hc. cbn [bind]. split.
    + intros [os Hos].
      destruct (calculate_stop_loss p d c direction) as [sl|];
        [now exists sl|discriminate Hos].
    + intros [sl Hsl]. rewrite Hsl. cbn [bind].
      destruct (direction =? "long")%string; [now eexists|].
      destruct (direction =? "short")%string; now eexists.
  - intros Hl Hs os.
    rewrite (eqb_long_false _ Hl), (eqb_short_false _ Hs).
    destruct (data_close d k) as [c|]; cbn [bind]; [|discriminate].
    destruct (use_atr p).
    + destruct (atr d k); cbn [bind]; [|discriminate].
      intros H. now injection H.
    + destruct (calculate_stop_loss p d c direction); cbn [bind]; [|discriminate].
      intros H. now injection H.
Qed.

Lemma enter_trade_reads_witness :
  enter_trade default_params (setup_view 10 ten_o_clock 25 15) "long" 2
  = Raise IndexError /\
  (exists orders, enter_trade atr_params flat_view "long" 0 = Ok orders) /\
  (forall orders,
      enter_trade atr_params flat_view "sideways" 0 = Ok orders -> orders = []).
Proof.
  destruct (enter_trade_reads default_params (setup_view 10 ten_o_clock 25 15)
              "long" 2) as (Hclose & _).
  destruct (enter_trade_reads atr_params flat_view "long" 0) as (_ & Hatr & _).
  destruct (enter_trade_reads atr_params flat_view "sideways" 0) as (_ & _ & _ & Hnone).
  split; [apply Hclose; reflexivity|].
  split; [apply Hatr; [reflexivity|split; discriminate]|].
  apply Hnone; discriminate.
Defined.


(** ** Where a stop-loss comes from *)

Lemma long_loop_sound (p : params) (d : View) (entry_price : Q)
    (indices : list Z) (found : option Q) :
  stop_loss_long_loop p d entry_price indices = Ok found ->
  match found with
  | Some stop_loss =>
      exists pre k post l,
        indices = pre ++ k :: post /\
        (forall j, In j pre -> passed_long p d entry_price j) /\
        qualifies_long p d entry_price k l /\
        stop_loss = l * stop_loss_buffer p
  | None => forall j, In j indices -> passed_long p d entry_price j
  end.
Proof.
  revert found. induction indices as [|i rest IH]; intros found; cbn [stop_loss_long_loop].
  - intros H. injection H as <-. intros j [].
  - unfold and_then, get.
    destruct (is_demand_zone p d i) as [[|]|] eqn:Hz; cbn [bind]; [| |discriminate].
    + destruct (data_low d i) as [l|] eqn:Hl; cbn [bind]; [|discriminate].
      destruct (Qltb l entry_price) eqn:Hlt.
      * intros H. injection H as <-. exists [], i, rest, l.
        split; [reflexivity|]. split; [intros j []|].
        apply Qltb_lt in Hlt. now repeat split.
      * assert (Hi : passed_long p d entry_price i).
        { right. exists l. apply Qltb_ge in Hlt. now repeat split. }
        intros H. specialize (IH _ H). destruct found as [s|].
        -- destruct IH as (pre & k & post & l' & -> & Hpre & Hq & Hs).
           exists (i :: pre), k, post, l'. split; [reflexivity|].
           split; [|now split].
           intros j [<-|Hin]; [exact Hi|now apply Hpre].
        -- intros j [<-|Hin]; [exact Hi|now apply IH].
    + assert (Hi : passed_long p d entry_price i) by now left.
      intros H. specialize (IH _ H). destruct found as [s|].
      * destruct IH as (pre & k & post & l' & -> & Hpre & Hq & Hs).
        exists (i :: pre), k, post, l'. split; [reflexivity|].
        split; [|now split].
        intros j [<-|Hin]; [exact Hi|now apply Hpre].
      * intros j [<-|Hin]; [exact Hi|now apply IH].
Qed.

Lemma short_loop_sound (p : params) (d : View) (entry_price : Q)
    (indices : list Z) (found : option Q) :
  stop_loss_short_loop p d entry_price indices = Ok found ->
  match found with
  | Some stop_loss =>
      exists pre k post h,
        indices = pre ++ k :: post /\
        (forall j, In j pre -> passed_short p d entry_price j) /\
        qualifies_short p d entry_price k h /\
        stop_loss = h * (2 - stop_loss_buffer p)
  | None => forall j, In j indices -> passed_short p d entry_price j
  end.
Proof.
  revert found. induction indices as [|i rest IH]; intros found; cbn [stop_loss_short_loop].
  - intros H. injection H as <-. intros j [].
  - unfold and_then, get.
    destruct (is_supply_zone p d i) as [[|]|] eqn:Hz; cbn [bind]; [| |discriminate].
    + destruct (data_high d i) as [h|] eqn:Hh; cbn [bind]; [|discriminate].
      destruct (Qgtb h entry_price) eqn:Hlt.
      * intros H. injection H as <-. exists [], i, rest, h.
        split; [reflexivity|]. split; [intros j []|].
        apply Qgtb_gt in Hlt. now repeat split.
      * assert (Hi : passed_short p d entry_price i).
        { right. exists h. apply Qltb_ge in Hlt. now repeat split. }
        intros H. specialize (IH _ H). destruct found as [s|].
        -- destruct IH as (pre & k & post & h' & -> & Hpre & Hq & Hs).
           exists (i :: pre), k, post, h'. split; [reflexivity|].
           split; [|now split].
           intros j [<-|Hin]; [exact Hi|now apply Hpre].
        -- intros j [<-|Hin]; [exact Hi|now apply IH].
    + assert (Hi : passed_short p d entry_price i) by now left.
      intros H. specialize (IH _ H). destruct found as [s|].
      * destruct IH as (pre & k & post & h' & -> & Hpre & Hq & Hs).
        exists (i :: pre), k, post, h'. split; [reflexivity|].
        split; [|now split].
        intros j [<-|Hin]; [exact Hi|now apply Hpre].
      * intros j [<-|Hin]; [exact Hi|now apply IH].
Qed.

(** X12. A stop-loss returned in RR-ratio mode is accounted for: for long
    it is the buffered low of a demand zone below entry at some index of
    [0 .. len - 1], every earlier index having been tested and passed over,
    or else every index was passed over and it is [entry * 0.98]; for short
    likewise with the supply zones above entry and [entry * 1.02].  No level
    is taken from a zone that lies behind an earlier qualifying one. *)
Theorem stop_loss_origin (p : params) (d : View) (entry_price stop_loss : Q)
    (direction : string) :
  calculate_stop_loss p d entry_price direction = Ok stop_loss ->
  (direction = "long"%string ->
   (exists k l,
       (0 <= k < data_len d)%Z /\
       (forall j, (0 <= j < k)%Z -> passed_long p d entry_price j) /\
       qualifies_long p d entry_price k l /\
       stop_loss = l * stop_loss_buffer p) \/
   ((forall j, (0 <= j < data_len d)%Z -> passed_long p d entry_price j) /\
    stop_loss = entry_price * 0.98)) /\
  (direction = "short"%string ->
   (exists k h,
       (0 <= k < data_len d)%Z /\
       (forall j, (0 <= j < k)%Z -> passed_short p d entry_price j) /\
       qualifies_short p d entry_price k h /\
       stop_loss = h * (2 - stop_loss_buffer p)) \/
   ((forall j, (0 <= j < data_len d)%Z -> passed_short p d entry_price j) /\
    stop_loss = entry_price * 1.02)).
Proof.
  intros H. split; intros ->; unfold calculate_stop_loss in H.
  - change ("long" =? "long")%string with true in H. cbv iota in H.
    destruct (stop_loss_long_loop p d entry_price (range 0 (data_len d)))
      as [found|] eqn:Hloop; cbn [bind] in H; [|discriminate].
    pose proof (long_loop_sound _ _ _ _ _ Hloop) as Hs.
    destruct found as [s|]; injection H as <-.
    + destruct Hs as (pre & k & post & l & Hrange & Hpre & Hq & ->).
      destruct (range_decompose _ _ _ _ _ Hrange) as [-> Hk].
      left. exists k, l. split; [exact Hk|]. split; [|now split].
      intros j Hj. apply Hpre. now apply range_In.
    + right. split; [|reflexivity].
      intros j Hj. apply Hs. now apply range_In.
  - change ("short" =? "long")%string with false in H.
    change ("short" =? "short")%string with true in H. cbv iota in H.
    destruct (stop_loss_short_loop p d entry_price (range 0 (data_len d)))
      as [found|] eqn:Hloop; cbn [bind] in H; [|discriminate].
    pose proof (short_loop_sound _ _ _ _ _ Hloop) as Hs.
    destruct found as [s|]; injection H as <-.
    + destruct Hs as (pre & k & post & h & Hrange & Hpre & Hq & ->).
      destruct (range_decompose _ _ _ _ _ Hrange) as [-> Hk].
      left. exists k, h. split; [exact Hk|]. split; [|now split].
      intros j Hj. apply Hpre. now apply range_In.
    + right. split; [|reflexivity].
      intros j Hj. apply Hs. now apply range_In.
Qed.

Lemma stop_loss_origin_witness :
  exists k l,
    (0 <= k < data_len zone_view)%Z /\
    qualifies_long default_params zone_view 100 k l /\
    95 * 0.995 = l * stop_loss_buffer default_params.
Proof.
  destruct (stop_loss_origin default_params zone_view 100 (95 * 0.995) "long" eq_refl)
    as [Hlong _].
  destruct (Hlong eq_refl) as [(k & l & Hk & _ & Hq & Hs) | [_ Hs]].
  - now exists k, l.
  - discriminate Hs.
Defined.

(** ** The trades of a run *)

Lemma traded_dates_In (log : list (date * list order)) (day : date) :
  In day (traded_dates log) ->
  exists orders, In (day, orders) log /\ orders <> [].
Proof.
  unfold traded_dates. rewrite in_map_iff.
  intros ([day' os] & Hday & Hin). cbn in Hday. subst day'.
  apply filter_In in Hin. destruct Hin as [Hin Hos].
  exists os. split; [exact Hin|].
  intros ->. discriminate Hos.
Qed.

Lemma traded_dates_after (strptime_HM : string -> result time)
    (astimezone_oslo : datetime -> datetime) (p : params)
    (views : list View) (day : date) :
  timestamp_order views ->
  (forall d, In d views -> (day <= dt_date (data_datetime d))%Z) ->
  Forall (fun traded => (day < traded)%Z)
         (traded_dates (run strptime_HM astimezone_oslo p (Some day) views)).
Proof.
  intros Hsorted Hafter. apply Forall_forall. intros traded Hin.
  destruct (traded_dates_In _ _ Hin) as (os & Hlog & Hos).
  destruct (run_dates _ _ _ _ _ _ _ Hlog) as (d & Hd & Hdate).
  pose proof (Hafter d Hd) as Hle.
  assert (traded <> day).
  { intros ->. apply Hos.
    now apply (run_after_trade strptime_HM astimezone_oslo p views day os). }
  lia.
Qed.

(** X13. Over bars in timestamp order the dates on which a run trades are
    strictly increasing, from any initial [last_trade_date]: the trades come
    one per date and in date order, so a run makes no more trades than its
    bars have dates. *)
Theorem traded_dates_increase
    (strptime_HM : string -> result time)
    (astimezone_oslo : datetime -> datetime)
    (p : params) (views : list View) (last_trade_date : option date) :
  timestamp_order views ->
  StronglySorted Z.lt
    (traded_dates (run strptime_HM astimezone_oslo p last_trade_date views)).
Proof.
  revert last_trade_date.
  induction views as [|d rest IH]; intros ltd Hsorted; cbn [run].
  - constructor.
  - apply StronglySorted_inv in Hsorted. destruct Hsorted as [Hrest Hhead].
    destruct (next _ _ _ _ _) as [[ltd' os]|] eqn:Hnext; [|constructor].
    unfold traded_dates. cbn [filter has_orders snd].
    destruct os as [|o os]; [now apply IH|].
    cbn [map fst]. fold (traded_dates (run strptime_HM astimezone_oslo p ltd' rest)).
    apply SSorted_cons; [now apply IH|].
    destruct (next_outcome _ _ _ _ _ _ _ Hnext) as [[_ Hnil] | (-> & _ & _)];
      [discriminate Hnil|].
    apply traded_dates_after; [exact Hrest|].
    intros d' Hd'. rewrite Forall_forall in Hhead.
    now apply datetime_le_date, Hhead.
Qed.

Lemma traded_dates_increase_witness :
  traded_dates
    (run parse_HM (shift_hours 1) default_params None
         [ setup_view 3 nine_o_clock 25 15;
           setup_view 4 ten_o_clock 25 15;
           setup_view 5 next_day 25 15 ])
  = [19000%Z; 19001%Z] /\
  StronglySorted Z.lt
    (traded_dates
       (run parse_HM (shift_hours 1) default_params None
            [ setup_view 3 nine_o_clock 25 15;
              setup_view 4 ten_o_clock 25 15;
              setup_view 5 next_day 25 15 ])).
Proof.
  split; [reflexivity|].
  apply (traded_dates_increase parse_HM (shift_hours 1) default_params).
  repeat first [apply SSorted_cons | apply SSorted_nil
                | apply Forall_cons | apply Forall_nil];
    unfold datetime_le;
    first [left; reflexivity | right; split; [reflexivity|discriminate]].
Defined.

(** ** The backtest driver *)

(** X14. The loop of [run_backtest] handles every listed file once and in
    order: it adds a feed for exactly the files that exist, prints
    "File not found: <file>" for exactly the others, and a missing file
    neither stops the loop nor adds a feed; over the five files of
    [csv_files] the feeds added and the lines printed number five. *)
Theorem load_feeds_partition (path_exists : string -> bool) (files : list string) :
  added_feeds (load_feeds path_exists files) = filter path_exists files /\
  printed_lines (load_feeds path_exists files)
  = map (fun file => ("File not found: " ++ file)%string)
        (filter (fun file => negb (path_exists file)) files) /\
  List.length (load_feeds path_exists files) = List.length files /\
  (List.length (added_feeds (load_feeds path_exists files))
   + List.length (printed_lines (load_feeds path_exists files)) = List.length files)%nat /\
  (List.length (added_feeds (load_feeds path_exists csv_files))
   + List.length (printed_lines (load_feeds path_exists csv_files)) = 5)%nat.
Proof.
  assert (Hgen : forall fs,
             added_feeds (load_feeds path_exists fs) = filter path_exists fs /\
             printed_lines (load_feeds path_exists fs)
             = map (fun file => ("File not found: " ++ file)%string)
                   (filter (fun file => negb (path_exists file)) fs) /\
             List.length (load_feeds path_exists fs) = List.length fs /\
             (List.length (added_feeds (load_feeds path_exists fs))
              + List.length (printed_lines (load_feeds path_exists fs))
              = List.length fs)%nat).
  { induction fs as [|file rest (IHa & IHp & IHl & IHs)]; [now repeat split|].
    cbn [load_feeds filter]. unfold added_feeds, printed_lines in *.
    destruct (path_exists file); cbn [flat_map negb app map List.length];
      rewrite IHa, IHp in *; rewrite ?length_map in *;
      repeat split; try reflexivity; cbn [List.length]; lia. }
  destruct (Hgen files) as (Ha & Hp & Hl & Hs).
  destruct (Hgen csv_files) as (_ & _ & _ & Hcsv).
  repeat split; assumption.
Qed.

(** ** A window that ends before it starts *)

Lemma lex_Lt (c1 c2 : comparison) :
  lex c1 c2 = Lt <-> c1 = Lt \/ (c1 = Eq /\ c2 = Lt).
Proof. destruct c1, c2; cbn; intuition congruence. Qed.

Lemma lex_Eq (c1 c2 : comparison) :
  lex c1 c2 = Eq <-> c1 = Eq /\ c2 = Eq.
Proof. destruct c1, c2; cbn; intuition congruence. Qed.

Lemma time_compare_Lt (a b : time) :
  time_compare a b = Lt <->
  (hour a < hour b \/
   (hour a = hour b /\
    (minute a < minute b \/
     (minute a = minute b /\
      (second a < second b \/
       (second a = second b /\ microsecond a < microsecond b))))))%Z.
Proof.
  unfold time_compare.
  rewrite !lex_Lt, !Z.compare_lt_iff, !Z.compare_eq_iff. tauto.
Qed.

Lemma time_compare_Eq (a b : time) :
  time_compare a b = Eq <->
  (hour a = hour b /\ minute a = minute b /\
   second a = second b /\ microsecond a = microsecond b)%Z.
Proof.
  unfold time_compare. rewrite !lex_Eq, !Z.compare_eq_iff. tauto.
Qed.

Lemma time_leb_true (a b : time) :
  time_leb a b = true <-> time_compare a b = Lt \/ time_compare a b = Eq.
Proof.
  unfold time_leb. destruct (time_compare a b); intuition congruence.
Qed.

(** X15. A session window whose end lies before its start admits no time of
    day: [is_within_trading_hours] is false on every bar, so a window meant
    to run over midnight (22:00 to 06:00) makes [next] place no order on any
    bar. *)
Theorem inverted_window_admits_nothing
    (strptime_HM : string -> result time)
    (astimezone_oslo : datetime -> datetime)
    (p : params) (d : View) (last_trade_date : option date)
    (start_time end_time : time) :
  strptime_HM (trade_start_time p) = Ok start_time ->
  strptime_HM (trade_end_time p) = Ok end_time ->
  time_lt end_time start_time ->
  is_within_trading_hours strptime_HM astimezone_oslo p d = Ok false /\
  next strptime_HM astimezone_oslo p d last_trade_date = Ok (last_trade_date, []).
Proof.
  intros Hs He Hlt.
  assert (Hgate : is_within_trading_hours strptime_HM astimezone_oslo p d = Ok false).
  { unfold is_within_trading_hours. rewrite Hs, He. cbn [bind]. f_equal.
    apply not_true_is_false. intros H. apply andb_true_iff in H.
    destruct H as [H1 H2]. apply time_leb_true in H1, H2.
    unfold time_lt in Hlt.
    rewrite time_compare_Lt, time_compare_Eq in H1, H2.
    rewrite time_compare_Lt in Hlt. lia. }
  split; [exact Hgate|].
  unfold next. rewrite Hgate. reflexivity.
Qed.

Lemma inverted_window_admits_nothing_witness :
  is_within_trading_hours parse_HM (shift_hours 1) overnight_params
    (setup_view 4 (mk_datetime 19000%Z (mk_time 22 30 0 0)) 25 15) = Ok false /\
  next parse_HM (shift_hours 1) overnight_params
    (setup_view 4 (mk_datetime 19000%Z (mk_time 22 30 0 0)) 25 15) None
  = Ok (None, []).
Proof.
  apply (inverted_window_admits_nothing parse_HM (shift_hours 1) overnight_params
           (setup_view 4 (mk_datetime 19000%Z (mk_time 22 30 0 0)) 25 15) None
           (mk_time 22 0 0 0) (mk_time 6 0 0 0));
    reflexivity.
Defined.

(** ** The prices of the orders *)


